(** * CRUD record services over SQLite: Flask users, FastAPI users, quotes API

    A shallow embedding of the three request-handler modules

      - [src/web_dev/flask_app/app.py]    (module [FlaskApp])
      - [src/web_dev/fastapi_app/app.py]  (module [FastapiApp])
      - [src/web_dev/quotes_api/app.py]   (module [QuotesApi])

    over a model of the part of [sqlite3] they use (module [Sqlite]):
    tables as lists of rows in rowid order, AUTOINCREMENT through the
    [sqlite_sequence] high-water mark, NOT NULL / UNIQUE constraint
    failures as [IntegrityError], connections as handles into a table of
    open connections, each with its own working view that [commit]
    writes back to the database file.

    Python values that reach a statement parameter are [None], integers
    and strings.  Row ids are unbounded integers. *)

From stdpp Require Import base gmap list strings pretty.
From Stdlib Require Import ZArith Lia.

Local Open Scope Z_scope.

(* ===================================================================== *)
(** ** The store                                                          *)
(* ===================================================================== *)

Module Sqlite.

(** Python values bound to [?] placeholders. *)
Inductive pyval :=
| PNone
| PInt (z : Z)
| PStr (s : string).

(** Values as the engine receives them. *)
Inductive sqlval :=
| VNull
| VInt (z : Z)
| VText (s : string).

Definition adapt (v : pyval) : sqlval :=
  match v with
  | PNone => VNull
  | PInt z => VInt z
  | PStr s => VText s
  end.

(** [str(v)], as used by f-strings. *)
Definition str (v : pyval) : string :=
  match v with
  | PNone => "None"
  | PInt z => pretty z
  | PStr s => s
  end.

(** A column declared [TEXT] stores an integer as its decimal text;
    [None] stands for SQL NULL. *)
Definition text_affinity (v : sqlval) : option string :=
  match v with
  | VNull => None
  | VInt z => Some (pretty z)
  | VText s => Some s
  end.

(** [users]: id INTEGER PRIMARY KEY AUTOINCREMENT, username TEXT NOT NULL
    UNIQUE, email TEXT NOT NULL, age INTEGER, created_at TIMESTAMP.
    The [age] cell keeps the bound value. *)
Record user_row := {
  u_id : Z;
  u_username : string;
  u_email : string;
  u_age : sqlval;
  u_created_at : string
}.

(** [quotes]: id, text TEXT NOT NULL, author TEXT NOT NULL, source TEXT,
    category TEXT, created_at. *)
Record quote_row := {
  q_id : Z;
  q_text : string;
  q_author : string;
  q_source : option string;
  q_category : option string;
  q_created_at : string
}.

(** [favorites]: id, quote_id INTEGER NOT NULL, user_id TEXT NOT NULL,
    created_at, UNIQUE(quote_id, user_id),
    FOREIGN KEY (quote_id) REFERENCES quotes (id) ON DELETE CASCADE. *)
Record favorite_row := {
  f_id : Z;
  f_quote_id : Z;
  f_user_id : string;
  f_created_at : string
}.

(** The tables of [users.db] and [quotes.db], each with the
    [sqlite_sequence] entry that AUTOINCREMENT maintains. *)
Record database := {
  users : list user_row;
  users_seq : Z;
  quotes : list quote_row;
  quotes_seq : Z;
  favorites : list favorite_row;
  favorites_seq : Z
}.

Definition empty_db : database :=
  {| users := []; users_seq := 0;
     quotes := []; quotes_seq := 0;
     favorites := []; favorites_seq := 0 |}.

Definition with_users (us : list user_row) (seq : Z) (d : database) : database :=
  {| users := us; users_seq := seq;
     quotes := quotes d; quotes_seq := quotes_seq d;
     favorites := favorites d; favorites_seq := favorites_seq d |}.

Definition with_quotes (qs : list quote_row) (seq : Z) (d : database) : database :=
  {| users := users d; users_seq := users_seq d;
     quotes := qs; quotes_seq := seq;
     favorites := favorites d; favorites_seq := favorites_seq d |}.

Definition with_favorites (fs : list favorite_row) (seq : Z) (d : database) : database :=
  {| users := users d; users_seq := users_seq d;
     quotes := quotes d; quotes_seq := quotes_seq d;
     favorites := fs; favorites_seq := seq |}.

(** AUTOINCREMENT: one more than the largest rowid that ever existed. *)
Definition max_rowid (ids : list Z) : Z := foldr Z.max 0 ids.

Definition next_rowid (seq : Z) (ids : list Z) : Z :=
  Z.max seq (max_rowid ids) + 1.

(** The statements the three applications execute.  An UPDATE carries
    its [column = ?] fragments paired with the parameters bound to them. *)
Inductive stmt :=
| INSERT_INTO_users (username email age : sqlval)
| SELECT_star_FROM_users
| SELECT_star_FROM_users_WHERE_id (id : Z)
| SELECT_1_FROM_users_WHERE_id (id : Z)
| UPDATE_users_SET (sets : list (string * sqlval)) (id : Z)
| DELETE_FROM_users_WHERE_id (id : Z)
| INSERT_INTO_quotes (text author : string) (source category : option string)
| SELECT_star_FROM_quotes
| SELECT_star_FROM_quotes_WHERE_id (id : Z)
| SELECT_1_FROM_quotes_WHERE_id (id : Z)
| UPDATE_quotes_SET (sets : list (string * sqlval)) (id : Z)
| DELETE_FROM_quotes_WHERE_id (id : Z)
| INSERT_INTO_favorites (quote_id : Z) (user_id : string)
| SELECT_quote_id_FROM_favorites_WHERE_user_id (user_id : string)
| SELECT_1_FROM_favorites_WHERE_quote_id_AND_user_id (quote_id : Z) (user_id : string)
| DELETE_FROM_favorites_WHERE_quote_id_AND_user_id (quote_id : Z) (user_id : string)
| SELECT_q_star_FROM_quotes_JOIN_favorites_WHERE_user_id (user_id : string).

(** Result rows ([sqlite3.Row]). *)
Inductive row :=
| RowUser (u : user_row)
| RowQuote (q : quote_row)
| RowOne
| RowInt (z : Z).

(** Why a statement failed: a constraint of the schema, or the
    statement itself. *)
Inductive sql_error :=
| ConstraintFailed (msg : string)
| SqlError (msg : string).

(** Outcome of running one statement against a database. *)
Inductive sql_result :=
| Rows (rs : list row)
| Inserted (rowid : Z) (d : database)
| Changed (n : Z) (d : database)
| Failed (e : sql_error).

Definition count {A} (l : list A) : Z := Z.of_nat (length l).

(** *** users *)

Definition insert_user (username email age : sqlval) (now : string)
    (d : database) : sql_result :=
  match text_affinity username with
  | None => Failed (ConstraintFailed "NOT NULL constraint failed: users.username")
  | Some name =>
    match text_affinity email with
    | None => Failed (ConstraintFailed "NOT NULL constraint failed: users.email")
    | Some mail =>
      if bool_decide (name ∈ u_username <$> users d)
      then Failed (ConstraintFailed "UNIQUE constraint failed: users.username")
      else
        let id := next_rowid (users_seq d) (u_id <$> users d) in
        let r := {| u_id := id; u_username := name; u_email := mail;
                    u_age := age; u_created_at := now |} in
        Inserted id (with_users (users d ++ [r]) id d)
    end
  end.

Definition users_where_id (id : Z) (d : database) : list user_row :=
  filter (λ u, u_id u = id) (users d).

(** One [column = ?] assignment of an UPDATE on a users row. *)
Definition set_user_column (col : string) (v : sqlval) (u : user_row)
    : sql_error + user_row :=
  if bool_decide (col = "email") then
    match text_affinity v with
    | None => inl (ConstraintFailed "NOT NULL constraint failed: users.email")
    | Some mail =>
      inr {| u_id := u_id u; u_username := u_username u; u_email := mail;
             u_age := u_age u; u_created_at := u_created_at u |}
    end
  else if bool_decide (col = "age") then
    inr {| u_id := u_id u; u_username := u_username u; u_email := u_email u;
           u_age := v; u_created_at := u_created_at u |}
  else inl (SqlError ("no such column: " ++ col)).

Fixpoint set_user_columns (sets : list (string * sqlval)) (u : user_row)
    : sql_error + user_row :=
  match sets with
  | [] => inr u
  | (col, v) :: rest =>
    match set_user_column col v u with
    | inl e => inl e
    | inr u' => set_user_columns rest u'
    end
  end.

Fixpoint update_user_rows (sets : list (string * sqlval)) (id : Z)
    (us : list user_row) : sql_error + (Z * list user_row) :=
  match us with
  | [] => inr (0, [])
  | u :: rest =>
    if bool_decide (u_id u = id) then
      match set_user_columns sets u with
      | inl e => inl e
      | inr u' =>
        match update_user_rows sets id rest with
        | inl e => inl e
        | inr (n, rest') => inr (n + 1, u' :: rest')
        end
      end
    else
      match update_user_rows sets id rest with
      | inl e => inl e
      | inr (n, rest') => inr (n, u :: rest')
      end
  end.

Definition update_users (sets : list (string * sqlval)) (id : Z)
    (d : database) : sql_result :=
  match sets with
  | [] => Failed (SqlError "near WHERE: syntax error")
  | _ =>
    match update_user_rows sets id (users d) with
    | inl e => Failed e
    | inr (n, us) => Changed n (with_users us (users_seq d) d)
    end
  end.

Definition delete_user_rows (id : Z) (d : database) : sql_result :=
  Changed (count (users_where_id id d))
          (with_users (filter (λ u, u_id u ≠ id) (users d)) (users_seq d) d).

(** *** quotes *)

Definition insert_quote (text author : string) (source category : option string)
    (now : string) (d : database) : sql_result :=
  let id := next_rowid (quotes_seq d) (q_id <$> quotes d) in
  let r := {| q_id := id; q_text := text; q_author := author;
              q_source := source; q_category := category;
              q_created_at := now |} in
  Inserted id (with_quotes (quotes d ++ [r]) id d).

Definition quotes_where_id (id : Z) (d : database) : list quote_row :=
  filter (λ q, q_id q = id) (quotes d).

Definition set_quote_column (col : string) (v : sqlval) (q : quote_row)
    : sql_error + quote_row :=
  if bool_decide (col = "text") then
    match text_affinity v with
    | None => inl (ConstraintFailed "NOT NULL constraint failed: quotes.text")
    | Some t =>
      inr {| q_id := q_id q; q_text := t; q_author := q_author q;
             q_source := q_source q; q_category := q_category q;
             q_created_at := q_created_at q |}
    end
  else if bool_decide (col = "author") then
    match text_affinity v with
    | None => inl (ConstraintFailed "NOT NULL constraint failed: quotes.author")
    | Some a =>
      inr {| q_id := q_id q; q_text := q_text q; q_author := a;
             q_source := q_source q; q_category := q_category q;
             q_created_at := q_created_at q |}
    end
  else if bool_decide (col = "source") then
    inr {| q_id := q_id q; q_text := q_text q; q_author := q_author q;
           q_source := text_affinity v; q_category := q_category q;
           q_created_at := q_created_at q |}
  else if bool_decide (col = "category") then
    inr {| q_id := q_id q; q_text := q_text q; q_author := q_author q;
           q_source := q_source q; q_category := text_affinity v;
           q_created_at := q_created_at q |}
  else inl (SqlError ("no such column: " ++ col)).

Fixpoint set_quote_columns (sets : list (string * sqlval)) (q : quote_row)
    : sql_error + quote_row :=
  match sets with
  | [] => inr q
  | (col, v) :: rest =>
    match set_quote_column col v q with
    | inl e => inl e
    | inr q' => set_quote_columns rest q'
    end
  end.

Fixpoint update_quote_rows (sets : list (string * sqlval)) (id : Z)
    (qs : list quote_row) : sql_error + (Z * list quote_row) :=
  match qs with
  | [] => inr (0, [])
  | q :: rest =>
    if bool_decide (q_id q = id) then
      match set_quote_columns sets q with
      | inl e => inl e
      | inr q' =>
        match update_quote_rows sets id rest with
        | inl e => inl e
        | inr (n, rest') => inr (n + 1, q' :: rest')
        end
      end
    else
      match update_quote_rows sets id rest with
      | inl e => inl e
      | inr (n, rest') => inr (n, q :: rest')
      end
  end.

Definition update_quotes (sets : list (string * sqlval)) (id : Z)
    (d : database) : sql_result :=
  match sets with
  | [] => Failed (SqlError "near WHERE: syntax error")
  | _ =>
    match update_quote_rows sets id (quotes d) with
    | inl e => Failed e
    | inr (n, qs) => Changed n (with_quotes qs (quotes_seq d) d)
    end
  end.

(** [ON DELETE CASCADE] acts only on a connection whose [foreign_keys]
    pragma is on. *)
Definition delete_quote_rows (foreign_keys : bool) (id : Z) (d : database)
    : sql_result :=
  let d' := with_quotes (filter (λ q, q_id q ≠ id) (quotes d)) (quotes_seq d) d in
  Changed (count (quotes_where_id id d))
    (if foreign_keys
     then with_favorites (filter (λ f, f_quote_id f ≠ id) (favorites d))
                         (favorites_seq d) d'
     else d').

(** *** favorites *)

Definition favorites_where (quote_id : Z) (user_id : string) (d : database)
    : list favorite_row :=
  filter (λ f, f_quote_id f = quote_id ∧ f_user_id f = user_id) (favorites d).

Definition insert_favorite (foreign_keys : bool) (quote_id : Z) (user_id : string)
    (now : string) (d : database) : sql_result :=
  if bool_decide (favorites_where quote_id user_id d ≠ [])
  then Failed (ConstraintFailed
         "UNIQUE constraint failed: favorites.quote_id, favorites.user_id")
  else if foreign_keys && bool_decide (quotes_where_id quote_id d = [])
  then Failed (ConstraintFailed "FOREIGN KEY constraint failed")
  else
    let id := next_rowid (favorites_seq d) (f_id <$> favorites d) in
    let r := {| f_id := id; f_quote_id := quote_id; f_user_id := user_id;
                f_created_at := now |} in
    Inserted id (with_favorites (favorites d ++ [r]) id d).

Definition delete_favorite_rows (quote_id : Z) (user_id : string) (d : database)
    : sql_result :=
  Changed (count (favorites_where quote_id user_id d))
    (with_favorites
       (filter (λ f, ¬ (f_quote_id f = quote_id ∧ f_user_id f = user_id))
               (favorites d))
       (favorites_seq d) d).

(** [SELECT q.* FROM quotes q JOIN favorites f ON q.id = f.quote_id
    WHERE f.user_id = ?] *)
Definition favorite_quotes (user_id : string) (d : database) : list quote_row :=
  q ← quotes d;
  f ← filter (λ f, f_quote_id f = q_id q ∧ f_user_id f = user_id) (favorites d);
  [q].

(** *** One statement *)

Definition run_stmt (foreign_keys : bool) (now : string) (s : stmt)
    (d : database) : sql_result :=
  match s with
  | INSERT_INTO_users username email age => insert_user username email age now d
  | SELECT_star_FROM_users => Rows (RowUser <$> users d)
  | SELECT_star_FROM_users_WHERE_id id => Rows (RowUser <$> users_where_id id d)
  | SELECT_1_FROM_users_WHERE_id id => Rows ((λ _, RowOne) <$> users_where_id id d)
  | UPDATE_users_SET sets id => update_users sets id d
  | DELETE_FROM_users_WHERE_id id => delete_user_rows id d
  | INSERT_INTO_quotes text author source category =>
      insert_quote text author source category now d
  | SELECT_star_FROM_quotes => Rows (RowQuote <$> quotes d)
  | SELECT_star_FROM_quotes_WHERE_id id => Rows (RowQuote <$> quotes_where_id id d)
  | SELECT_1_FROM_quotes_WHERE_id id => Rows ((λ _, RowOne) <$> quotes_where_id id d)
  | UPDATE_quotes_SET sets id => update_quotes sets id d
  | DELETE_FROM_quotes_WHERE_id id => delete_quote_rows foreign_keys id d
  | INSERT_INTO_favorites quote_id user_id =>
      insert_favorite foreign_keys quote_id user_id now d
  | SELECT_quote_id_FROM_favorites_WHERE_user_id user_id =>
      Rows ((λ f, RowInt (f_quote_id f))
              <$> filter (λ f, f_user_id f = user_id) (favorites d))
  | SELECT_1_FROM_favorites_WHERE_quote_id_AND_user_id quote_id user_id =>
      Rows ((λ _, RowOne) <$> favorites_where quote_id user_id d)
  | DELETE_FROM_favorites_WHERE_quote_id_AND_user_id quote_id user_id =>
      delete_favorite_rows quote_id user_id d
  | SELECT_q_star_FROM_quotes_JOIN_favorites_WHERE_user_id user_id =>
      Rows (RowQuote <$> favorite_quotes user_id d)
  end.

End Sqlite.

(* ===================================================================== *)
(** ** Exceptions, connections and cursors                                *)
(* ===================================================================== *)

Module Runtime.
Import Sqlite.

Inductive exn :=
| IntegrityError (msg : string)
| OperationalError (msg : string)
| ProgrammingError (msg : string)
| TypeError (msg : string)
| KeyError (key : string)
| HTTPException (status_code : Z) (detail : string).

(** [str(e)] *)
Definition exn_str (e : exn) : string :=
  match e with
  | IntegrityError msg | OperationalError msg
  | ProgrammingError msg | TypeError msg => msg
  | KeyError key => "'" ++ key ++ "'"
  | HTTPException code detail => pretty code ++ ": " ++ detail
  end.

(** An open connection: its view of the database (the file's content
    plus its own uncommitted changes) and its [foreign_keys] pragma. *)
Record connection := {
  view : database;
  foreign_keys : bool
}.

Inductive event :=
| Connect (h : nat)
| Execute (h : nat) (s : stmt)
| Commit (h : nat)
| Close (h : nat).

(** The process and its environment: the database file, the clock that
    [CURRENT_TIMESTAMP] reads, the connections that are open, and the
    history of calls into [sqlite3]. *)
Record world := {
  disk : database;
  now : string;
  conns : gmap nat connection;
  next_handle : nat;
  log : list event
}.

Definition boot (d : database) (t : string) : world :=
  {| disk := d; now := t; conns := ∅; next_handle := 0%nat; log := [] |}.

Inductive outcome (A : Type) :=
| Return (a : A)
| Raise (e : exn).
Arguments Return {A} a.
Arguments Raise {A} e.

Definition M (A : Type) : Type := world → outcome A * world.

#[export] Instance M_ret : MRet M := λ A a w, (Return a, w).

#[export] Instance M_bind : MBind M := λ A B f m w,
  match m w with
  | (Return a, w') => f a w'
  | (Raise e, w') => (Raise e, w')
  end.

Definition raise {A} (e : exn) : M A := λ w, (Raise e, w).

(** [try: body  except ... as e: handler e] *)
Definition try_except {A} (body : M A) (handler : exn → M A) : M A := λ w,
  match body w with
  | (Return a, w') => (Return a, w')
  | (Raise e, w') => handler e w'
  end.

Definition record (e : event) (w : world) : world :=
  {| disk := disk w; now := now w; conns := conns w;
     next_handle := next_handle w; log := log w ++ [e] |}.

Definition set_conn (h : nat) (c : connection) (w : world) : world :=
  {| disk := disk w; now := now w; conns := <[h := c]> (conns w);
     next_handle := next_handle w; log := log w |}.

(** [sqlite3.connect(path)]: a new connection; the engine leaves the
    [foreign_keys] pragma off until a [PRAGMA foreign_keys = ON]. *)
Definition sqlite3_connect : M nat := λ w,
  let h := next_handle w in
  (Return h,
   {| disk := disk w; now := now w;
      conns := <[h := {| view := disk w; foreign_keys := false |}]> (conns w);
      next_handle := S h; log := log w ++ [Connect h] |}).

(** A cursor carries its connection and the outcome of its last
    [execute]; [lastrowid] is read only after an INSERT. *)
Record cursor := {
  connection_of : nat;
  rows : list row;
  lastrowid : Z;
  rowcount : Z
}.

Definition conn_cursor (conn : nat) : M cursor :=
  mret {| connection_of := conn; rows := []; lastrowid := 0; rowcount := -1 |}.

Definition closed_msg : string := "Cannot operate on a closed database.".

Definition execute (cur : cursor) (s : stmt) : M cursor := λ w,
  let h := connection_of cur in
  match conns w !! h with
  | None => (Raise (ProgrammingError closed_msg), w)
  | Some c =>
    let w' := record (Execute h s) w in
    match run_stmt (foreign_keys c) (now w) s (view c) with
    | Rows rs =>
      (Return {| connection_of := h; rows := rs;
                 lastrowid := lastrowid cur; rowcount := -1 |}, w')
    | Inserted id d =>
      (Return {| connection_of := h; rows := []; lastrowid := id; rowcount := 1 |},
       set_conn h {| view := d; foreign_keys := foreign_keys c |} w')
    | Changed n d =>
      (Return {| connection_of := h; rows := [];
                 lastrowid := lastrowid cur; rowcount := n |},
       set_conn h {| view := d; foreign_keys := foreign_keys c |} w')
    | Failed (ConstraintFailed msg) => (Raise (IntegrityError msg), w')
    | Failed (SqlError msg) => (Raise (OperationalError msg), w')
    end
  end.

Definition fetchone (cur : cursor) : option row := head (rows cur).
Definition fetchall (cur : cursor) : list row := rows cur.

(** [conn.commit()]: the connection's view becomes the file's content. *)
Definition commit (conn : nat) : M unit := λ w,
  match conns w !! conn with
  | None => (Raise (ProgrammingError closed_msg), w)
  | Some c =>
    (Return (),
     {| disk := view c; now := now w; conns := conns w;
        next_handle := next_handle w; log := log w ++ [Commit conn] |})
  end.

(** [conn.close()]: uncommitted changes are dropped with the view. *)
Definition close (conn : nat) : M unit := λ w,
  (Return (),
   {| disk := disk w; now := now w; conns := delete conn (conns w);
      next_handle := next_handle w; log := log w ++ [Close conn] |}).

(** [dict(row)] for a users row and for a quotes row; [dict(None)]
    raises. *)
Definition dict_user (r : option row) : M user_row :=
  match r with
  | Some (RowUser u) => mret u
  | _ => raise (TypeError "'NoneType' object is not iterable")
  end.

Definition dict_quote (r : option row) : M quote_row :=
  match r with
  | Some (RowQuote q) => mret q
  | _ => raise (TypeError "'NoneType' object is not iterable")
  end.

End Runtime.

(* ===================================================================== *)
(** ** flask_app/app.py                                                   *)
(* ===================================================================== *)

Module FlaskApp.
Import Sqlite Runtime.

Definition get_db_connection : M nat :=
  conn ← sqlite3_connect;
  mret conn.

(** The bodies passed to [jsonify]. *)
Inductive json_body :=
| Error (error : string)
| Created (message : string) (user_id : Z)
| Message (message : string)
| UserBody (user : user_row).

(** [request.get_json()]: a JSON object. *)
Abbreviation payload := (gmap string pyval).

(** [data[key]] *)
Definition subscript (data : payload) (key : string) : M pyval :=
  match data !! key with
  | Some v => mret v
  | None => raise (KeyError key)
  end.

(** [data.get(key)] *)
Definition get (data : payload) (key : string) : pyval :=
  default PNone (data !! key).

(** [key in data] *)
Definition contains (data : payload) (key : string) : bool :=
  bool_decide (is_Some (data !! key)).

Definition create_user (data : payload) : M (json_body * Z) :=
  if negb (forallb (contains data) ["username"; "email"])
  then mret (Error "Username and email are required", 400)
  else
    try_except
      (conn ← get_db_connection;
       cursor ← conn_cursor conn;
       username ← subscript data "username";
       email ← subscript data "email";
       cursor ← execute cursor
         (INSERT_INTO_users (adapt username) (adapt email) (adapt (get data "age")));
       commit conn;;
       let user_id := lastrowid cursor in
       close conn;;
       mret (Created "User created successfully" user_id, 201))
      (λ e,
         match e with
         | IntegrityError _ =>
           username ← subscript data "username";
           mret (Error ("Username '" ++ str username ++ "' already exists"), 409)
         | _ => mret (Error (exn_str e), 500)
         end).

Definition get_user (user_id : Z) : M (json_body * Z) :=
  try_except
    (conn ← get_db_connection;
     cursor ← conn_cursor conn;
     cursor ← execute cursor (SELECT_star_FROM_users_WHERE_id user_id);
     let user := fetchone cursor in
     close conn;;
     match user with
     | Some _ => u ← dict_user user; mret (UserBody u, 200)
     | None => mret (Error "User not found", 404)
     end)
    (λ e, mret (Error (exn_str e), 500)).

Definition update_user (user_id : Z) (data : payload) : M (json_body * Z) :=
  if bool_decide (data = ∅)
  then mret (Error "No data provided for update", 400)
  else
    let update_fields : list (string * sqlval) := [] in
    let update_fields :=
      match data !! "email" with
      | Some v => update_fields ++ [("email", adapt v)]
      | None => update_fields
      end in
    let update_fields :=
      match data !! "age" with
      | Some v => update_fields ++ [("age", adapt v)]
      | None => update_fields
      end in
    if bool_decide (update_fields = [])
    then mret (Error "No valid fields to update", 400)
    else
      try_except
        (conn ← get_db_connection;
         cursor ← conn_cursor conn;
         cursor ← execute cursor (SELECT_1_FROM_users_WHERE_id user_id);
         match fetchone cursor with
         | None =>
           close conn;;
           mret (Error "User not found", 404)
         | Some _ =>
           cursor ← execute cursor (UPDATE_users_SET update_fields user_id);
           commit conn;;
           close conn;;
           mret (Message "User updated successfully", 200)
         end)
        (λ e, mret (Error (exn_str e), 500)).

Definition delete_user (user_id : Z) : M (json_body * Z) :=
  try_except
    (conn ← get_db_connection;
     cursor ← conn_cursor conn;
     cursor ← execute cursor (SELECT_1_FROM_users_WHERE_id user_id);
     match fetchone cursor with
     | None =>
       close conn;;
       mret (Error "User not found", 404)
     | Some _ =>
       cursor ← execute cursor (DELETE_FROM_users_WHERE_id user_id);
       commit conn;;
       close conn;;
       mret (Message "User deleted successfully", 200)
     end)
    (λ e, mret (Error (exn_str e), 500)).

(** The bodies [get_all_users] passes to [jsonify]. *)
Inductive users_body :=
| Users (users : list user_row)
| UsersError (error : string).

(** [[dict(row) for row in cursor.fetchall()]] *)
Definition dicts (rs : list row) : list user_row :=
  omap (λ r, match r with RowUser u => Some u | _ => None end) rs.

Definition get_all_users : M (users_body * Z) :=
  try_except
    (conn ← get_db_connection;
     cursor ← conn_cursor conn;
     cursor ← execute cursor SELECT_star_FROM_users;
     let users := dicts (fetchall cursor) in
     close conn;;
     mret (Users users, 200))
    (λ e, mret (UsersError (exn_str e), 500)).

End FlaskApp.

(* ===================================================================== *)
(** ** The FastAPI layer shared by fastapi_app and quotes_api             *)
(* ===================================================================== *)

Module Fastapi.
Import Sqlite Runtime.

(** What the client receives: the route's declared status and the value
    the handler returned, or the status and detail of the
    [HTTPException] it raised. *)
Inductive response (A : Type) :=
| Ok (status_code : Z) (content : A)
| Failure (status_code : Z) (detail : string).
Arguments Ok {A} status_code content.
Arguments Failure {A} status_code detail.

Definition serve {A} (status_code : Z) (handler : M A) (w : world)
    : response A * world :=
  match handler w with
  | (Return a, w') => (Ok status_code a, w')
  | (Raise (HTTPException code detail), w') => (Failure code detail, w')
  | (Raise _, w') => (Failure 500 "Internal Server Error", w')
  end.

Definition HTTP_200_OK : Z := 200.
Definition HTTP_201_CREATED : Z := 201.
Definition HTTP_204_NO_CONTENT : Z := 204.
Definition HTTP_400_BAD_REQUEST : Z := 400.
Definition HTTP_404_NOT_FOUND : Z := 404.
Definition HTTP_409_CONFLICT : Z := 409.
Definition HTTP_500_INTERNAL_SERVER_ERROR : Z := 500.

(** A field of an update model: left out of the request, sent as
    [null], or sent with a value.  [dict(exclude_unset=True)] keeps the
    last two. *)
Inductive field (A : Type) :=
| Unset
| Null
| Value (a : A).
Arguments Unset {A}.
Arguments Null {A}.
Arguments Value {A} a.

Definition dict_entry {A} (key : string) (to_py : A → pyval) (f : field A)
    : list (string * pyval) :=
  match f with
  | Unset => []
  | Null => [(key, PNone)]
  | Value a => [(key, to_py a)]
  end.

(** [key in d] and [d[key]] on a dict kept in insertion order. *)
Definition contains (d : list (string * pyval)) (key : string) : bool :=
  bool_decide (key ∈ d.*1).

Fixpoint lookup_key (d : list (string * pyval)) (key : string) : option pyval :=
  match d with
  | [] => None
  | (k, v) :: rest => if bool_decide (k = key) then Some v else lookup_key rest key
  end.

Definition subscript (d : list (string * pyval)) (key : string) : M pyval :=
  match lookup_key d key with
  | Some v => mret v
  | None => raise (KeyError key)
  end.

Definition optional {A} (to_py : A → pyval) (o : option A) : pyval :=
  match o with
  | None => PNone
  | Some a => to_py a
  end.


End Fastapi.

(* ===================================================================== *)
(** ** fastapi_app/app.py                                                 *)
(* ===================================================================== *)

Module FastapiApp.
Import Sqlite Runtime Fastapi.

Definition get_db_connection : M nat :=
  conn ← sqlite3_connect;
  mret conn.

(** [UserCreate(UserBase)] *)
Record UserCreate := {
  username : string;
  email : string;
  age : option Z
}.

(** [UserUpdate] *)
Record UserUpdate := {
  upd_email : field string;
  upd_age : field Z
}.

Definition UserUpdate_dict (u : UserUpdate) : list (string * pyval) :=
  dict_entry "email" PStr (upd_email u) ++ dict_entry "age" PInt (upd_age u).

Definition create_user (user : UserCreate) : M user_row :=
  try_except
    (conn ← get_db_connection;
     cursor ← conn_cursor conn;
     cursor ← execute cursor
       (INSERT_INTO_users (VText (username user)) (VText (email user))
                          (adapt (optional PInt (age user))));
     commit conn;;
     let user_id := lastrowid cursor in
     cursor ← execute cursor (SELECT_star_FROM_users_WHERE_id user_id);
     new_user ← dict_user (fetchone cursor);
     close conn;;
     mret new_user)
    (λ e,
       match e with
       | IntegrityError _ =>
         raise (HTTPException HTTP_409_CONFLICT
                  ("Username '" ++ username user ++ "' already exists"))
       | _ => raise (HTTPException HTTP_500_INTERNAL_SERVER_ERROR (exn_str e))
       end).

Definition get_user (user_id : Z) : M user_row :=
  try_except
    (conn ← get_db_connection;
     cursor ← conn_cursor conn;
     cursor ← execute cursor (SELECT_star_FROM_users_WHERE_id user_id);
     let user := fetchone cursor in
     close conn;;
     match user with
     | None => raise (HTTPException HTTP_404_NOT_FOUND "User not found")
     | Some _ => dict_user user
     end)
    (λ e,
       match e with
       | HTTPException _ _ => raise e
       | _ => raise (HTTPException HTTP_500_INTERNAL_SERVER_ERROR (exn_str e))
       end).

Definition update_user (user_id : Z) (user_update : UserUpdate) : M user_row :=
  let update_data := UserUpdate_dict user_update in
  if bool_decide (update_data = [])
  then raise (HTTPException HTTP_400_BAD_REQUEST "No valid fields to update")
  else
    try_except
      (conn ← get_db_connection;
       cursor ← conn_cursor conn;
       cursor ← execute cursor (SELECT_1_FROM_users_WHERE_id user_id);
       match fetchone cursor with
       | None =>
         close conn;;
         raise (HTTPException HTTP_404_NOT_FOUND "User not found")
       | Some _ =>
         let update_fields : list (string * sqlval) := [] in
         update_fields ←
           (if contains update_data "email"
            then v ← subscript update_data "email";
                 mret (update_fields ++ [("email", adapt v)])
            else mret update_fields);
         update_fields ←
           (if contains update_data "age"
            then v ← subscript update_data "age";
                 mret (update_fields ++ [("age", adapt v)])
            else mret update_fields);
         cursor ← execute cursor (UPDATE_users_SET update_fields user_id);
         commit conn;;
         cursor ← execute cursor (SELECT_star_FROM_users_WHERE_id user_id);
         updated_user ← dict_user (fetchone cursor);
         close conn;;
         mret updated_user
       end)
      (λ e,
         match e with
         | HTTPException _ _ => raise e
         | _ => raise (HTTPException HTTP_500_INTERNAL_SERVER_ERROR (exn_str e))
         end).

Definition delete_user (user_id : Z) : M unit :=
  try_except
    (conn ← get_db_connection;
     cursor ← conn_cursor conn;
     cursor ← execute cursor (SELECT_1_FROM_users_WHERE_id user_id);
     match fetchone cursor with
     | None =>
       close conn;;
       raise (HTTPException HTTP_404_NOT_FOUND "User not found")
     | Some _ =>
       cursor ← execute cursor (DELETE_FROM_users_WHERE_id user_id);
       commit conn;;
       close conn;;
       mret ()
     end)
    (λ e,
       match e with
       | HTTPException _ _ => raise e
       | _ => raise (HTTPException HTTP_500_INTERNAL_SERVER_ERROR (exn_str e))
       end).

(** [[dict(row) for row in cursor.fetchall()]] *)
Definition dicts (rs : list row) : list user_row :=
  omap (λ r, match r with RowUser u => Some u | _ => None end) rs.

Definition get_all_users : M (list user_row) :=
  try_except
    (conn ← get_db_connection;
     cursor ← conn_cursor conn;
     cursor ← execute cursor SELECT_star_FROM_users;
     let users := dicts (fetchall cursor) in
     close conn;;
     mret users)
    (λ e, raise (HTTPException HTTP_500_INTERNAL_SERVER_ERROR (exn_str e))).

(** The constraints that [UserBase] declares with [Field]:
    [min_length=3, max_length=50] on [username], [EmailStr] on [email],
    [ge=0, le=120] on [age].  [EmailStr] stands for pydantic's e-mail
    syntax check. *)
Section Validation.
Variable EmailStr : string → bool.


End Validation.

End FastapiApp.

(* ===================================================================== *)
(** ** quotes_api/app.py                                                  *)
(* ===================================================================== *)

Module QuotesApi.
Import Sqlite Runtime Fastapi.

Definition get_db_connection : M nat :=
  conn ← sqlite3_connect;
  mret conn.

(** [QuoteCreate(QuoteBase)] *)
Record QuoteCreate := {
  text : string;
  author : string;
  source : option string;
  category : option string
}.

(** [QuoteUpdate] *)
Record QuoteUpdate := {
  upd_text : field string;
  upd_author : field string;
  upd_source : field string;
  upd_category : field string
}.

Definition QuoteUpdate_dict (u : QuoteUpdate) : list (string * pyval) :=
  dict_entry "text" PStr (upd_text u) ++ dict_entry "author" PStr (upd_author u)
  ++ dict_entry "source" PStr (upd_source u)
  ++ dict_entry "category" PStr (upd_category u).

(** [dict(row)] of a quotes row with the ["is_favorite"] key set. *)
Record Quote := {
  fields : quote_row;
  is_favorite : bool
}.

(** [FavoriteCreate] *)
Record FavoriteCreate := {
  user_id : string
}.

(** Truth value of an [Optional[str]]: [None] and the empty string are
    false. *)
Definition truthy (user_id : option string) : option string :=
  match user_id with
  | Some s => if bool_decide (s = "") then None else Some s
  | None => None
  end.

(** [[dict(row) for row in cursor.fetchall()]] *)
Definition dicts (rs : list row) : list quote_row :=
  omap (λ r, match r with RowQuote q => Some q | _ => None end) rs.

(** [{row[0] for row in cursor.fetchall()}] *)
Definition first_columns (rs : list row) : gset Z :=
  list_to_set (omap (λ r, match r with RowInt z => Some z | _ => None end) rs).

Definition create_quote (quote : QuoteCreate) : M Quote :=
  try_except
    (conn ← get_db_connection;
     cursor ← conn_cursor conn;
     cursor ← execute cursor
       (INSERT_INTO_quotes (text quote) (author quote) (source quote) (category quote));
     commit conn;;
     let quote_id := lastrowid cursor in
     cursor ← execute cursor (SELECT_star_FROM_quotes_WHERE_id quote_id);
     new_quote ← dict_quote (fetchone cursor);
     let new_quote := {| fields := new_quote; is_favorite := false |} in
     close conn;;
     mret new_quote)
    (λ e, raise (HTTPException HTTP_500_INTERNAL_SERVER_ERROR (exn_str e))).

(** The body of the [for quote in quotes] loop of [create_quotes_batch],
    threading the cursor and the list built so far. *)
Definition create_quotes_batch_step (quote : QuoteCreate)
    (st : cursor * list Quote) : M (cursor * list Quote) :=
  let '(cursor, created_quotes) := st in
  cursor ← execute cursor
    (INSERT_INTO_quotes (text quote) (author quote) (source quote) (category quote));
  let quote_id := lastrowid cursor in
  cursor ← execute cursor (SELECT_star_FROM_quotes_WHERE_id quote_id);
  new_quote ← dict_quote (fetchone cursor);
  let new_quote := {| fields := new_quote; is_favorite := false |} in
  mret (cursor, created_quotes ++ [new_quote]).

Fixpoint for_each {A S} (l : list A) (body : A → S → M S) (st : S) : M S :=
  match l with
  | [] => mret st
  | x :: rest => st' ← body x st; for_each rest body st'
  end.

Definition create_quotes_batch (quotes : list QuoteCreate) : M (list Quote) :=
  try_except
    (conn ← get_db_connection;
     cursor ← conn_cursor conn;
     let created_quotes : list Quote := [] in
     '(cursor, created_quotes) ←
       for_each quotes create_quotes_batch_step (cursor, created_quotes);
     commit conn;;
     close conn;;
     mret created_quotes)
    (λ e, raise (HTTPException HTTP_500_INTERNAL_SERVER_ERROR (exn_str e))).

Definition get_all_quotes (user_id : option string) : M (list Quote) :=
  try_except
    (conn ← get_db_connection;
     cursor ← conn_cursor conn;
     cursor ← execute cursor SELECT_star_FROM_quotes;
     let quotes := dicts (fetchall cursor) in
     quotes ←
       match truthy user_id with
       | Some user_id =>
         cursor ← execute cursor (SELECT_quote_id_FROM_favorites_WHERE_user_id user_id);
         let favorite_quote_ids := first_columns (fetchall cursor) in
         mret ((λ quote,
                  {| fields := quote;
                     is_favorite := bool_decide (q_id quote ∈ favorite_quote_ids) |})
                 <$> quotes)
       | None =>
         mret ((λ quote, {| fields := quote; is_favorite := false |}) <$> quotes)
       end;
     close conn;;
     mret quotes)
    (λ e, raise (HTTPException HTTP_500_INTERNAL_SERVER_ERROR (exn_str e))).

(** The favourite check shared by [get_quote] and [update_quote]. *)
Definition check_favorite (cursor : cursor) (quote_id : Z)
    (user_id : option string) (result : quote_row) : M Quote :=
  match truthy user_id with
  | Some user_id =>
    cursor ← execute cursor
      (SELECT_1_FROM_favorites_WHERE_quote_id_AND_user_id quote_id user_id);
    mret {| fields := result;
            is_favorite := bool_decide (fetchone cursor ≠ None) |}
  | None => mret {| fields := result; is_favorite := false |}
  end.

Definition reraise_or_500 {A} (e : exn) : M A :=
  match e with
  | HTTPException _ _ => raise e
  | _ => raise (HTTPException HTTP_500_INTERNAL_SERVER_ERROR (exn_str e))
  end.

Definition get_quote (quote_id : Z) (user_id : option string) : M Quote :=
  try_except
    (conn ← get_db_connection;
     cursor ← conn_cursor conn;
     cursor ← execute cursor (SELECT_star_FROM_quotes_WHERE_id quote_id);
     let quote := fetchone cursor in
     match quote with
     | None =>
       close conn;;
       raise (HTTPException HTTP_404_NOT_FOUND "Quote not found")
     | Some _ =>
       result ← dict_quote quote;
       result ← check_favorite cursor quote_id user_id result;
       close conn;;
       mret result
     end)
    reraise_or_500.

Definition update_quote (quote_id : Z) (quote_update : QuoteUpdate)
    (user_id : option string) : M Quote :=
  let update_data := QuoteUpdate_dict quote_update in
  if bool_decide (update_data = [])
  then raise (HTTPException HTTP_400_BAD_REQUEST "No valid fields to update")
  else
    try_except
      (conn ← get_db_connection;
       cursor ← conn_cursor conn;
       cursor ← execute cursor (SELECT_1_FROM_quotes_WHERE_id quote_id);
       match fetchone cursor with
       | None =>
         close conn;;
         raise (HTTPException HTTP_404_NOT_FOUND "Quote not found")
       | Some _ =>
         let update_fields :=
           (λ '(field, value), (field, adapt value)) <$> update_data in
         cursor ← execute cursor (UPDATE_quotes_SET update_fields quote_id);
         commit conn;;
         cursor ← execute cursor (SELECT_star_FROM_quotes_WHERE_id quote_id);
         updated_quote ← dict_quote (fetchone cursor);
         updated_quote ← check_favorite cursor quote_id user_id updated_quote;
         close conn;;
         mret updated_quote
       end)
      reraise_or_500.

Definition delete_quote (quote_id : Z) : M unit :=
  try_except
    (conn ← get_db_connection;
     cursor ← conn_cursor conn;
     cursor ← execute cursor (SELECT_1_FROM_quotes_WHERE_id quote_id);
     match fetchone cursor with
     | None =>
       close conn;;
       raise (HTTPException HTTP_404_NOT_FOUND "Quote not found")
     | Some _ =>
       cursor ← execute cursor (DELETE_FROM_quotes_WHERE_id quote_id);
       commit conn;;
       close conn;;
       mret ()
     end)
    reraise_or_500.

(** The handlers return [{"success": b}]; the model returns [b]. *)
Definition add_favorite (quote_id : Z) (favorite : FavoriteCreate) : M bool :=
  try_except
    (conn ← get_db_connection;
     cursor ← conn_cursor conn;
     cursor ← execute cursor (SELECT_1_FROM_quotes_WHERE_id quote_id);
     match fetchone cursor with
     | None =>
       close conn;;
       raise (HTTPException HTTP_404_NOT_FOUND "Quote not found")
     | Some _ =>
       try_except
         (cursor ← execute cursor (INSERT_INTO_favorites quote_id (user_id favorite));
          commit conn)
         (λ e,
            match e with
            | IntegrityError _ => mret ()
            | _ => raise e
            end);;
       close conn;;
       mret true
     end)
    reraise_or_500.

Definition remove_favorite (quote_id : Z) (user_id : string) : M bool :=
  try_except
    (conn ← get_db_connection;
     cursor ← conn_cursor conn;
     cursor ← execute cursor
       (DELETE_FROM_favorites_WHERE_quote_id_AND_user_id quote_id user_id);
     commit conn;;
     let success := bool_decide (rowcount cursor > 0) in
     close conn;;
     mret success)
    (λ e, raise (HTTPException HTTP_500_INTERNAL_SERVER_ERROR (exn_str e))).

Definition get_favorite_quotes (user_id : string) : M (list Quote) :=
  try_except
    (conn ← get_db_connection;
     cursor ← conn_cursor conn;
     cursor ← execute cursor
       (SELECT_q_star_FROM_quotes_JOIN_favorites_WHERE_user_id user_id);
     let quotes := dicts (fetchall cursor) in
     let quotes := (λ quote, {| fields := quote; is_favorite := true |}) <$> quotes in
     close conn;;
     mret quotes)
    (λ e, raise (HTTPException HTTP_500_INTERNAL_SERVER_ERROR (exn_str e))).

End QuotesApi.

(* ===================================================================== *)
(** ** Running a handler                                                  *)
(* ===================================================================== *)

Module Sessions.
Import Sqlite Runtime.

(** The world after a handler that opened a connection, made [evs]
    further calls on it, left [d] in the file and closed it. *)
Definition closed_after (w : world) (d : database) (evs : list event) : world :=
  {| disk := d; now := now w;
     conns := delete (next_handle w) (conns w);
     next_handle := S (next_handle w);
     log := log w ++ Connect (next_handle w) :: evs |}.

(** The world after a handler that opened a connection, made [evs]
    further calls on it, left [d] in the file and returned with the
    connection still open on the view [v]. *)
Definition open_after (w : world) (d v : database) (evs : list event) : world :=
  {| disk := d; now := now w;
     conns := <[next_handle w := {| view := v; foreign_keys := false |}]> (conns w);
     next_handle := S (next_handle w);
     log := log w ++ Connect (next_handle w) :: evs |}.

(** The row an INSERT INTO users adds to [d], and [d] with it. *)
Definition new_user (name mail : string) (age : sqlval) (t : string)
    (d : database) : user_row :=
  {| u_id := next_rowid (users_seq d) (u_id <$> users d);
     u_username := name; u_email := mail; u_age := age; u_created_at := t |}.

Definition add_user (r : user_row) (d : database) : database :=
  with_users (users d ++ [r]) (u_id r) d.

(** Handles of the connections that are open. *)
Definition open_handles (w : world) : gset nat := dom (conns w).

(** What an UPDATE of the users row [r] with the fields of a FastAPI
    [UserUpdate] leaves: supplied fields rewritten, the others kept. *)
Definition assign_user (upd : FastapiApp.UserUpdate) (r : user_row) : user_row :=
  {| u_id := u_id r;
     u_username := u_username r;
     u_email := match FastapiApp.upd_email upd with
                | Fastapi.Value e => e
                | _ => u_email r
                end;
     u_age := match FastapiApp.upd_age upd with
              | Fastapi.Unset => u_age r
              | Fastapi.Null => VNull
              | Fastapi.Value a => VInt a
              end;
     u_created_at := u_created_at r |}.

(** The same for the JSON object a Flask update receives. *)
Definition assign_user_json (data : FlaskApp.payload) (r : user_row) : user_row :=
  {| u_id := u_id r;
     u_username := u_username r;
     u_email := match data !! "email" with
                | Some v => default (u_email r) (text_affinity (adapt v))
                | None => u_email r
                end;
     u_age := match data !! "age" with
              | Some v => adapt v
              | None => u_age r
              end;
     u_created_at := u_created_at r |}.

(** A table with [f] applied to the rows whose id is [id]. *)
Definition update_where {A} (key : A → Z) (id : Z) (f : A → A) (l : list A) : list A :=
  (λ r, if bool_decide (key r = id) then f r else r) <$> l.

(** The pair that [UNIQUE(quote_id, user_id)] constrains. *)
Definition favorite_key (f : favorite_row) : Z * string :=
  (f_quote_id f, f_user_id f).

Definition unique_favorites (d : database) : Prop :=
  NoDup (favorite_key <$> favorites d).

(** The row an INSERT INTO favorites adds to [d], and [d] with it. *)
Definition new_favorite (quote_id : Z) (user_id t : string) (d : database)
    : favorite_row :=
  {| f_id := next_rowid (favorites_seq d) (f_id <$> favorites d);
     f_quote_id := quote_id; f_user_id := user_id; f_created_at := t |}.

Definition add_favorite_row (r : favorite_row) (d : database) : database :=
  with_favorites (favorites d ++ [r]) (f_id r) d.

(** [d] without the quotes whose id is [id]; the favorites table is
    left alone. *)
Definition without_quote (id : Z) (d : database) : database :=
  with_quotes (filter (λ q, q_id q ≠ id) (quotes d)) (quotes_seq d) d.

(** [d] without the favorites rows of the pair. *)
Definition without_favorite (quote_id : Z) (user_id : string) (d : database)
    : database :=
  with_favorites
    (filter (λ f, ¬ (f_quote_id f = quote_id ∧ f_user_id f = user_id)) (favorites d))
    (favorites_seq d) d.

(** A quotes row as the handlers return it when no favourite is looked up. *)
Definition plain (q : quote_row) : QuotesApi.Quote :=
  {| QuotesApi.fields := q; QuotesApi.is_favorite := false |}.

(** The row an INSERT INTO quotes adds to [d], and [d] with it. *)
Definition new_quote (quote : QuotesApi.QuoteCreate) (t : string) (d : database)
    : quote_row :=
  {| q_id := next_rowid (quotes_seq d) (q_id <$> quotes d);
     q_text := QuotesApi.text quote;
     q_author := QuotesApi.author quote;
     q_source := QuotesApi.source quote;
     q_category := QuotesApi.category quote;
     q_created_at := t |}.

Definition add_quote (r : quote_row) (d : database) : database :=
  with_quotes (quotes d ++ [r]) (q_id r) d.

(** The rows a batch adds to [d], in the order of the payloads. *)
Fixpoint batch_rows (t : string) (quotes : list QuotesApi.QuoteCreate)
    (d : database) : list quote_row :=
  match quotes with
  | [] => []
  | quote :: rest =>
    let r := new_quote quote t d in
    r :: batch_rows t rest (add_quote r d)
  end.

Fixpoint batch_db (t : string) (quotes : list QuotesApi.QuoteCreate)
    (d : database) : database :=
  match quotes with
  | [] => d
  | quote :: rest => batch_db t rest (add_quote (new_quote quote t d) d)
  end.

(** The statements a batch executes on connection [h]. *)
Fixpoint batch_events (h : nat) (t : string) (quotes : list QuotesApi.QuoteCreate)
    (d : database) : list event :=
  match quotes with
  | [] => []
  | quote :: rest =>
    let r := new_quote quote t d in
    Execute h (INSERT_INTO_quotes (QuotesApi.text quote) (QuotesApi.author quote)
                 (QuotesApi.source quote) (QuotesApi.category quote))
    :: Execute h (SELECT_star_FROM_quotes_WHERE_id (q_id r))
    :: batch_events h t rest (add_quote r d)
  end.

(** The client-supplied columns of a stored row and of a payload. *)
Definition row_content (r : quote_row)
    : string * string * option string * option string :=
  (q_text r, q_author r, q_source r, q_category r).

Definition payload_content (quote : QuotesApi.QuoteCreate)
    : string * string * option string * option string :=
  (QuotesApi.text quote, QuotesApi.author quote, QuotesApi.source quote,
   QuotesApi.category quote).

(** The constraints of the schema: primary keys, UNIQUE(username),
    UNIQUE(quote_id, user_id), and AUTOINCREMENT's high-water marks. *)
Record db_ok (d : database) : Prop := {
  ok_user_ids : NoDup (u_id <$> users d);
  ok_usernames : NoDup (u_username <$> users d);
  ok_users_seq : ∀ i, i ∈ u_id <$> users d → 0 < i ≤ users_seq d;
  ok_quote_ids : NoDup (q_id <$> quotes d);
  ok_quotes_seq : ∀ i, i ∈ q_id <$> quotes d → 0 < i ≤ quotes_seq d;
  ok_favorite_ids : NoDup (f_id <$> favorites d);
  ok_favorites_seq : ∀ i, i ∈ f_id <$> favorites d → 0 < i ≤ favorites_seq d;
  ok_favorites : unique_favorites d
}.

(** The file and the view of every open connection satisfy them. *)
Definition world_ok (w : world) : Prop :=
  db_ok (disk w) ∧ ∀ h c, conns w !! h = Some c → db_ok (view c).

(** [m] keeps the invariant [I], whatever it returns or raises. *)
Definition preserves (I : world → Prop) {A} (m : M A) : Prop :=
  ∀ w, I w → I (snd (m w)).

End Sessions.

(* ===================================================================== *)
(** ** Histories of requests on the User resource                         *)
(* ===================================================================== *)

Module History.
Import Sqlite Runtime.

(** A request to either implementation of the User resource. *)
Inductive user_request :=
| FlaskCreate (data : FlaskApp.payload)
| FlaskGet (user_id : Z)
| FlaskUpdate (user_id : Z) (data : FlaskApp.payload)
| FlaskDelete (user_id : Z)
| FastapiCreate (user : FastapiApp.UserCreate)
| FastapiGet (user_id : Z)
| FastapiUpdate (user_id : Z) (user_update : FastapiApp.UserUpdate)
| FastapiDelete (user_id : Z).

(** The id a create handler hands out, if it does. *)
Definition flask_issued (o : outcome (FlaskApp.json_body * Z)) : option Z :=
  match o with
  | Return (FlaskApp.Created _ user_id, _) => Some user_id
  | _ => None
  end.

Definition fastapi_issued (o : outcome user_row) : option Z :=
  match o with
  | Return r => Some (u_id r)
  | Raise _ => None
  end.

(** Serve one request: the id issued, if any, and the world afterwards. *)
Definition serve_one (req : user_request) (w : world) : option Z * world :=
  match req with
  | FlaskCreate data =>
    let r := FlaskApp.create_user data w in (flask_issued (fst r), snd r)
  | FlaskGet user_id => (None, snd (FlaskApp.get_user user_id w))
  | FlaskUpdate user_id data => (None, snd (FlaskApp.update_user user_id data w))
  | FlaskDelete user_id => (None, snd (FlaskApp.delete_user user_id w))
  | FastapiCreate user =>
    let r := FastapiApp.create_user user w in (fastapi_issued (fst r), snd r)
  | FastapiGet user_id => (None, snd (FastapiApp.get_user user_id w))
  | FastapiUpdate user_id user_update =>
    (None, snd (FastapiApp.update_user user_id user_update w))
  | FastapiDelete user_id => (None, snd (FastapiApp.delete_user user_id w))
  end.

(** Serve the requests in order: the ids issued, oldest first, and the
    world afterwards. *)
Fixpoint serve_all (reqs : list user_request) (w : world) : list Z * world :=
  match reqs with
  | [] => ([], w)
  | req :: rest =>
    let '(issued, w1) := serve_one req w in
    let '(ids, w2) := serve_all rest w1 in
    (from_option (λ id, [id]) [] issued ++ ids, w2)
  end.

End History.

(* ===================================================================== *)
(** ** Sample requests and stores                                         *)
(* ===================================================================== *)

Module Samples.
Import Sqlite Runtime.

Definition t0 : string := "2024-01-01 00:00:00".



Definition bob_data : FlaskApp.payload :=
  {[ "username" := PStr "bob"; "email" := PStr "bob@example.com" ]}.

Definition bob : FastapiApp.UserCreate :=
  {| FastapiApp.username := "bob"; FastapiApp.email := "bob@example.com";
     FastapiApp.age := Some 30 |}.

(** The store after bob was created once. *)
Definition with_bob : world :=
  snd (FlaskApp.create_user bob_data (boot empty_db t0)).



Definition new_email : FlaskApp.payload :=
  {[ "email" := PStr "bob@example.org" ]}.

Definition new_email_update : FastapiApp.UserUpdate :=
  {| FastapiApp.upd_email := Fastapi.Value "bob@example.org";
     FastapiApp.upd_age := Fastapi.Unset |}.

Definition no_update : FastapiApp.UserUpdate :=
  {| FastapiApp.upd_email := Fastapi.Unset; FastapiApp.upd_age := Fastapi.Unset |}.

Definition no_quote_update : QuotesApi.QuoteUpdate :=
  {| QuotesApi.upd_text := Fastapi.Unset; QuotesApi.upd_author := Fastapi.Unset;
     QuotesApi.upd_source := Fastapi.Unset; QuotesApi.upd_category := Fastapi.Unset |}.

Definition lao_tzu : QuotesApi.QuoteCreate :=
  {| QuotesApi.text := "The journey of a thousand miles begins with a single step.";
     QuotesApi.author := "Lao Tzu";
     QuotesApi.source := Some "Tao Te Ching";
     QuotesApi.category := Some "Philosophy" |}.

Definition seneca : QuotesApi.QuoteCreate :=
  {| QuotesApi.text := "Luck is what happens when preparation meets opportunity.";
     QuotesApi.author := "Seneca";
     QuotesApi.source := None;
     QuotesApi.category := None |}.

Definition user123 : QuotesApi.FavoriteCreate := {| QuotesApi.user_id := "user123" |}.

(** A store with one quote. *)
Definition with_quote : world :=
  snd (QuotesApi.create_quote lao_tzu (boot empty_db t0)).

(** The same store after user123 marked the quote as a favourite. *)
Definition with_favorite : world :=
  snd (QuotesApi.add_favorite 1 user123 with_quote).

Definition new_category : QuotesApi.QuoteUpdate :=
  {| QuotesApi.upd_text := Fastapi.Unset; QuotesApi.upd_author := Fastapi.Unset;
     QuotesApi.upd_source := Fastapi.Unset;
     QuotesApi.upd_category := Fastapi.Value "Travel" |}.

Definition null_email_data : FlaskApp.payload :=
  {[ "username" := PStr "carol"; "email" := PNone ]}.

Definition null_email_update : FastapiApp.UserUpdate :=
  {| FastapiApp.upd_email := Fastapi.Null; FastapiApp.upd_age := Fastapi.Unset |}.

Definition null_text_update : QuotesApi.QuoteUpdate :=
  {| QuotesApi.upd_text := Fastapi.Null; QuotesApi.upd_author := Fastapi.Unset;
     QuotesApi.upd_source := Fastapi.Unset; QuotesApi.upd_category := Fastapi.Unset |}.

End Samples.

(* ===================================================================== *)
(** ** What the remaining handlers are checked against                    *)
(* ===================================================================== *)

Module Observations.
Import Sqlite Runtime Sessions QuotesApi.

(** [d] without the users whose id is [id]. *)
Definition without_user (id : Z) (d : database) : database :=
  with_users (filter (λ u, u_id u ≠ id) (users d)) (users_seq d) d.

(** [w'] has the file of [w], and the connection a handler opened on
    [w] is not open in it. *)
Definition unchanged_and_closed (w w' : world) : Prop :=
  disk w' = disk w ∧ next_handle w ∉ open_handles w'.


(** The flag for an optional [user_id]. *)
Definition favorite_flag (user_id : option string) (id : Z) (d : database) : bool :=
  match truthy user_id with
  | Some u => bool_decide (favorites_where id u d ≠ [])
  | None => false
  end.

(** What an UPDATE of the quotes row [q] with the fields of a
    [QuoteUpdate] leaves: supplied fields rewritten (a null source or
    category cleared), the others kept. *)
Definition assign_quote (upd : QuoteUpdate) (q : quote_row) : quote_row :=
  {| q_id := q_id q;
     q_text := match upd_text upd with Fastapi.Value t => t | _ => q_text q end;
     q_author := match upd_author upd with Fastapi.Value a => a | _ => q_author q end;
     q_source := match upd_source upd with
                 | Fastapi.Unset => q_source q
                 | Fastapi.Null => None
                 | Fastapi.Value s => Some s
                 end;
     q_category := match upd_category upd with
                   | Fastapi.Unset => q_category q
                   | Fastapi.Null => None
                   | Fastapi.Value c => Some c
                   end;
     q_created_at := q_created_at q |}.

Definition updated_quotes (id : Z) (upd : QuoteUpdate) (d : database) : database :=
  with_quotes (update_where q_id id (assign_quote upd) (quotes d)) (quotes_seq d) d.

(** Favorites rows reference only quote ids that were issued. *)
Definition refs_bounded (d : database) : Prop :=
  ∀ f, f ∈ favorites d → f_quote_id f ≤ quotes_seq d.

(** The list a handler returned; nothing when it raised. *)
Definition returned {A} (o : outcome (list A)) : list A :=
  match o with
  | Return l => l
  | Raise _ => []
  end.

Definition one {A} (o : outcome A) : list A :=
  match o with
  | Return a => [a]
  | Raise _ => []
  end.

(** [create_quote] called once per payload, in order: the records
    returned and the world afterwards. *)
Fixpoint create_each (quotes_in : list QuoteCreate) (w : world) : list Quote * world :=
  match quotes_in with
  | [] => ([], w)
  | quote :: rest =>
    let r := create_quote quote w in
    let rs := create_each rest (snd r) in
    (one (fst r) ++ fst rs, snd rs)
  end.

(** The answers that come out of an [except sqlite3.IntegrityError] or
    [except Exception] clause: 409 and 500. *)
Definition from_except {A} (o : outcome A) : bool :=
  match o with
  | Return _ => false
  | Raise (HTTPException code _) => bool_decide (code = 409 ∨ code = 500)
  | Raise _ => true
  end.

Definition flask_from_except {B} (o : outcome (B * Z)) : bool :=
  match o with
  | Return (_, code) => bool_decide (code = 409 ∨ code = 500)
  | Raise _ => true
  end.

(** The open connections after a handler ran on [w]: one more when it
    answered from an except clause. *)
Definition handles_after (w : world) (failed : bool) : gset nat :=
  if failed then {[next_handle w]} ∪ open_handles w else open_handles w.

(** A request to the quotes service. *)
Inductive quote_request :=
| CreateQuote (quote : QuoteCreate)
| CreateQuotesBatch (quotes_in : list QuoteCreate)
| GetAllQuotes (user_id : option string)
| GetQuote (quote_id : Z) (user_id : option string)
| UpdateQuote (quote_id : Z) (quote_update : QuoteUpdate) (user_id : option string)
| DeleteQuote (quote_id : Z)
| AddFavorite (quote_id : Z) (favorite : FavoriteCreate)
| RemoveFavorite (quote_id : Z) (user_id : string)
| GetFavoriteQuotes (user_id : string).

Definition serve_quote (req : quote_request) (w : world) : world :=
  match req with
  | CreateQuote quote => snd (create_quote quote w)
  | CreateQuotesBatch quotes_in => snd (create_quotes_batch quotes_in w)
  | GetAllQuotes user_id => snd (get_all_quotes user_id w)
  | GetQuote quote_id user_id => snd (get_quote quote_id user_id w)
  | UpdateQuote quote_id quote_update user_id =>
    snd (update_quote quote_id quote_update user_id w)
  | DeleteQuote quote_id => snd (delete_quote quote_id w)
  | AddFavorite quote_id favorite => snd (add_favorite quote_id favorite w)
  | RemoveFavorite quote_id user_id => snd (remove_favorite quote_id user_id w)
  | GetFavoriteQuotes user_id => snd (get_favorite_quotes user_id w)
  end.

(** The world after serving the requests in order. *)
Definition serve_quotes (reqs : list quote_request) (w : world) : world :=
  foldl (λ w req, serve_quote req w) w reqs.

Definition store_ok (w : world) : Prop := world_ok w ∧ refs_bounded (disk w).

(** Inputs for the examples. *)
Definition carol : FastapiApp.UserCreate :=
  {| FastapiApp.username := "carol"; FastapiApp.email := "carol@example.com";
     FastapiApp.age := Some 41 |}.


Definition bob_row : user_row :=
  {| u_id := 1; u_username := "bob"; u_email := "bob@example.com";
     u_age := VNull; u_created_at := Samples.t0 |}.

Definition lao_tzu_row : quote_row :=
  {| q_id := 1;
     q_text := text Samples.lao_tzu; q_author := author Samples.lao_tzu;
     q_source := source Samples.lao_tzu; q_category := category Samples.lao_tzu;
     q_created_at := Samples.t0 |}.

(** The store of [with_favorite] after quote 1 was deleted: its
    Favorite row is still there. *)
Definition with_orphan : world :=
  snd (delete_quote 1 Samples.with_favorite).

End Observations.

(* ===================================================================== *)
(** ** Facts about the store                                              *)
(* ===================================================================== *)

Module SqliteFacts.
Import Sqlite.

Lemma max_rowid_nonneg ids : 0 ≤ max_rowid ids.
Proof. induction ids as [|i ids IH]; simpl; lia. Qed.

Lemma max_rowid_ge ids i : i ∈ ids → i ≤ max_rowid ids.
Proof.
  induction ids as [|j ids IH]; intros Hin.
  - by apply elem_of_nil in Hin.
  - apply elem_of_cons in Hin as [->|Hin]; simpl; [lia|].
    specialize (IH Hin). lia.
Qed.

Lemma next_rowid_pos seq ids : 0 < next_rowid seq ids.
Proof. unfold next_rowid. pose proof (max_rowid_nonneg ids). lia. Qed.

Lemma next_rowid_above_seq seq ids : seq < next_rowid seq ids.
Proof. unfold next_rowid. lia. Qed.

Lemma next_rowid_above_ids seq ids i : i ∈ ids → i < next_rowid seq ids.
Proof. intros Hin%max_rowid_ge. unfold next_rowid. lia. Qed.

Lemma next_rowid_fresh seq ids : next_rowid seq ids ∉ ids.
Proof. intros Hin%(next_rowid_above_ids seq). lia. Qed.

(** A filter that no row passes. *)
Lemma filter_none {A} (P : A → Prop) `{!∀ x, Decision (P x)} (l : list A) :
  (∀ x, x ∈ l → ¬ P x) → filter P l = [].
Proof.
  induction l as [|x l IH]; intros Hl; [done|].
  rewrite filter_cons_False; [|apply Hl; left].
  apply IH. intros y Hy. apply Hl. by right.
Qed.

(** A filter that every row passes. *)
Lemma filter_all {A} (P : A → Prop) `{!∀ x, Decision (P x)} (l : list A) :
  (∀ x, x ∈ l → P x) → filter P l = l.
Proof.
  induction l as [|x l IH]; intros Hl; [done|].
  rewrite filter_cons_True; [|apply Hl; left].
  f_equal. apply IH. intros y Hy. apply Hl. by right.
Qed.

(** The row just inserted is the only one a SELECT by its rowid finds. *)
Lemma users_where_new_id us seq d r :
  u_id r = next_rowid seq (u_id <$> us) →
  users_where_id (u_id r) (with_users (us ++ [r]) (u_id r) d) = [r].
Proof.
  intros Hid. unfold users_where_id. simpl.
  rewrite filter_app, filter_none, filter_cons_True, filter_nil; [done..|].
  intros u Hu Heq.
  apply (next_rowid_fresh seq (u_id <$> us)).
  rewrite <- Hid, <- Heq. by apply list_elem_of_fmap_2.
Qed.

Lemma quotes_where_new_id qs seq d r :
  q_id r = next_rowid seq (q_id <$> qs) →
  quotes_where_id (q_id r) (with_quotes (qs ++ [r]) (q_id r) d) = [r].
Proof.
  intros Hid. unfold quotes_where_id. simpl.
  rewrite filter_app, filter_none, filter_cons_True, filter_nil; [done..|].
  intros q Hq Heq.
  apply (next_rowid_fresh seq (q_id <$> qs)).
  rewrite <- Hid, <- Heq. by apply list_elem_of_fmap_2.
Qed.

(** INSERT INTO users with text values: the UNIQUE check decides. *)
Lemma insert_user_text name mail age now d :
  insert_user (VText name) (VText mail) age now d =
  if bool_decide (name ∈ u_username <$> users d)
  then Failed (ConstraintFailed "UNIQUE constraint failed: users.username")
  else
    let id := next_rowid (users_seq d) (u_id <$> users d) in
    Inserted id
      (with_users
         (users d ++ [{| u_id := id; u_username := name; u_email := mail;
                         u_age := age; u_created_at := now |}]) id d).
Proof. reflexivity. Qed.

End SqliteFacts.

Ltac unfold_runtime :=
  unfold Runtime.try_except, mbind, Runtime.M_bind, mret, Runtime.M_ret,
    Runtime.raise, Runtime.sqlite3_connect, Runtime.conn_cursor,
    Runtime.execute, Runtime.commit, Runtime.close, Runtime.record,
    Runtime.set_conn, Runtime.fetchone, Runtime.fetchall,
    Runtime.dict_user, Runtime.dict_quote in *.

(** Symbolic execution of a handler up to the next statement whose
    outcome depends on the content of the tables. *)
Ltac run :=
  repeat (progress
    (unfold_runtime;
     cbn [fst snd Sqlite.run_stmt Runtime.conns Runtime.disk Runtime.now
          Runtime.next_handle Runtime.log Runtime.view Runtime.foreign_keys
          Runtime.connection_of Runtime.rows Runtime.lastrowid
          Runtime.rowcount head fmap list_fmap Sqlite.adapt
          Sqlite.text_affinity Fastapi.optional Sqlite.str];
     rewrite ?lookup_insert_eq, ?insert_insert_eq, ?delete_insert_eq)).

(** Bring the final world to the shape of [closed_after] or [open_after]. *)
Ltac finish :=
  unfold Sessions.closed_after, Sessions.open_after;
  rewrite <- ?app_assoc; cbn [app]; try reflexivity.

(** Evaluate the tests on closed terms (keys of a dict, column names). *)
Ltac decide_closed :=
  repeat match goal with
  | |- context [bool_decide ?P] =>
    let b := eval vm_compute in (bool_decide P) in
    match b with
    | true => change (bool_decide P) with true
    | false => change (bool_decide P) with false
    end
  end.

(** [run] through the lookups in the dict of an update model. *)
Ltac run_dict :=
  repeat (progress
    (unfold Fastapi.contains, Fastapi.subscript;
     cbn [Fastapi.dict_entry app fmap list_fmap fst snd Fastapi.lookup_key
          FastapiApp.upd_email FastapiApp.upd_age
          QuotesApi.upd_text QuotesApi.upd_author QuotesApi.upd_source
          QuotesApi.upd_category];
     decide_closed; run)).

(** Case analysis on the next outcome the handler branches on. *)
Ltac case_scrutinee :=
  match goal with
  | |- context [match ?x with _ => _ end] =>
    lazymatch type of x with
    | prod _ _ => fail
    | _ => destruct x eqn:?
    end
  end.



(** Split [db_ok] into its fields on a rebuilt database. *)
Ltac ok_fields :=
  split;
  cbn [Sqlite.users Sqlite.users_seq Sqlite.quotes Sqlite.quotes_seq
       Sqlite.favorites Sqlite.favorites_seq
       Sqlite.with_users Sqlite.with_quotes Sqlite.with_favorites];
  try done.

Module SessionFacts.
Import Sqlite Runtime Sessions.

Lemma closed_after_handle w d evs : next_handle w ∉ open_handles (closed_after w d evs).
Proof.
  unfold open_handles, closed_after. simpl.
  rewrite elem_of_dom, lookup_delete_eq. by intros [? ?].
Qed.

Lemma open_after_handle w d v evs : next_handle w ∈ open_handles (open_after w d v evs).
Proof.
  unfold open_handles, open_after. simpl.
  rewrite elem_of_dom, lookup_insert_eq. eauto.
Qed.

End SessionFacts.

(* ===================================================================== *)
(** ** Creating users                                                     *)
(* ===================================================================== *)

Module CreateUser.
Import Sqlite Runtime Sessions SqliteFacts SessionFacts.

Lemma users_where_added name mail age t d :
  users_where_id (u_id (new_user name mail age t d))
                 (add_user (new_user name mail age t d) d)
  = [new_user name mail age t d].
Proof. unfold add_user. by eapply users_where_new_id. Qed.

Lemma flask_create_user_run data w name mail :
  data !! "username" = Some (PStr name) →
  data !! "email" = Some (PStr mail) →
  FlaskApp.create_user data w =
    let s := INSERT_INTO_users (VText name) (VText mail)
               (adapt (FlaskApp.get data "age")) in
    if bool_decide (name ∈ u_username <$> users (disk w))
    then (Return (FlaskApp.Error ("Username '" ++ name ++ "' already exists"), 409),
          open_after w (disk w) (disk w) [Execute (next_handle w) s])
    else
      let r := new_user name mail (adapt (FlaskApp.get data "age")) (now w) (disk w) in
      (Return (FlaskApp.Created "User created successfully" (u_id r), 201),
       closed_after w (add_user r (disk w))
         [Execute (next_handle w) s; Commit (next_handle w); Close (next_handle w)]).
Proof.
  intros Hu He.
  unfold FlaskApp.create_user, FlaskApp.contains, FlaskApp.get_db_connection,
    FlaskApp.subscript.
  cbn [forallb]. rewrite Hu, He.
  rewrite !bool_decide_eq_true_2 by eauto. cbn [negb andb].
  run. rewrite insert_user_text.
  case_bool_decide; run; finish.
Qed.

Lemma fastapi_create_user_run user w :
  FastapiApp.create_user user w =
    let name := FastapiApp.username user in
    let age := adapt (Fastapi.optional PInt (FastapiApp.age user)) in
    let s := INSERT_INTO_users (VText name) (VText (FastapiApp.email user)) age in
    if bool_decide (name ∈ u_username <$> users (disk w))
    then (Raise (HTTPException 409 ("Username '" ++ name ++ "' already exists")),
          open_after w (disk w) (disk w) [Execute (next_handle w) s])
    else
      let r := new_user name (FastapiApp.email user) age (now w) (disk w) in
      (Return r,
       closed_after w (add_user r (disk w))
         [Execute (next_handle w) s; Commit (next_handle w);
          Execute (next_handle w) (SELECT_star_FROM_users_WHERE_id (u_id r));
          Close (next_handle w)]).
Proof.
  unfold FastapiApp.create_user, FastapiApp.get_db_connection.
  run. rewrite insert_user_text.
  case_bool_decide; run; [finish|].
  pose proof (users_where_added (FastapiApp.username user) (FastapiApp.email user)
    (adapt (Fastapi.optional PInt (FastapiApp.age user))) (now w) (disk w)) as Hsel.
  unfold add_user, new_user in Hsel. cbn [u_id] in Hsel. rewrite Hsel.
  run. finish.
Qed.

End CreateUser.

(* ===================================================================== *)
(** ** The users sequence along a history                                 *)
(* ===================================================================== *)

Module HistoryFacts.
Import Sqlite Runtime Sessions History SqliteFacts SessionFacts CreateUser.













End HistoryFacts.

Module CreateUserSpec.
Import Sqlite Runtime Sessions Samples History SqliteFacts SessionFacts
  CreateUser HistoryFacts.



(** Why C5 is stated for string fields: Flask maps every
    [IntegrityError] to 409, so a null email, which fails the NOT NULL
    constraint, is answered as if the username were taken. *)
Lemma flask_create_user_null_email :
  fst (FlaskApp.create_user null_email_data (boot empty_db t0))
  = Return (FlaskApp.Error "Username 'carol' already exists", 409).
Proof. by vm_compute. Qed.

End CreateUserSpec.

(* ===================================================================== *)
(** ** Connections on the error paths                                     *)
(* ===================================================================== *)

Module ConnectionLifetime.
Import Sqlite Runtime Sessions Samples SqliteFacts SessionFacts CreateUser.

(** On success [create_user] closes the connection it opened. *)
Lemma create_user_success_closes w data user name mail :
  data !! "username" = Some (PStr name) →
  data !! "email" = Some (PStr mail) →
  FastapiApp.username user = name →
  (name ∉ u_username <$> users (disk w)) →
  (next_handle w ∉ open_handles (snd (FlaskApp.create_user data w)))
  ∧ (next_handle w ∉ open_handles (snd (FastapiApp.create_user user w))).
Proof.
  intros Hu He Hname Hfresh.
  rewrite (flask_create_user_run data w name mail Hu He).
  rewrite fastapi_create_user_run, Hname. cbn zeta.
  rewrite !bool_decide_eq_false_2 by done. cbn [snd].
  split; apply closed_after_handle.
Qed.

(** C2 (fails on the code).  When the username is taken, both
    [create_user] handlers answer 409 from the [except
    sqlite3.IntegrityError] clause after [connect] and the failed
    INSERT only: no [close] is called and the connection they opened is
    still open when they return. *)
Theorem create_user_conflict_keeps_connection_open
    (w : world) (data : FlaskApp.payload) (user : FastapiApp.UserCreate)
    (name mail : string) :
  data !! "username" = Some (PStr name) →
  data !! "email" = Some (PStr mail) →
  FastapiApp.username user = name →
  name ∈ u_username <$> users (disk w) →
  let h := next_handle w in
  let flask := FlaskApp.create_user data w in
  let fastapi := FastapiApp.create_user user w in
  (∃ msg, fst flask = Return (FlaskApp.Error msg, 409))
  ∧ (∃ msg, fst fastapi = Raise (HTTPException 409 msg))
  ∧ h ∈ open_handles (snd flask)
  ∧ h ∈ open_handles (snd fastapi)
  ∧ (∃ s, log (snd flask) = log w ++ [Connect h; Execute h s])
  ∧ (∃ s, log (snd fastapi) = log w ++ [Connect h; Execute h s]).
Proof.
  intros Hu He Hname Htaken h flask fastapi. subst h flask fastapi.
  rewrite (flask_create_user_run data w name mail Hu He).
  rewrite fastapi_create_user_run, Hname. cbn zeta.
  rewrite !bool_decide_eq_true_2 by done. cbn [fst snd].
  split_and!; eauto using open_after_handle.
Qed.

Lemma create_user_conflict_keeps_connection_open_witness :
  open_handles with_bob = ∅
  ∧ 1%nat ∈ open_handles (snd (FlaskApp.create_user bob_data with_bob))
  ∧ 1%nat ∈ open_handles (snd (FastapiApp.create_user bob with_bob)).
Proof.
  split; [by vm_compute|].
  destruct (create_user_conflict_keeps_connection_open with_bob bob_data bob
              "bob" "bob@example.com") as (_ & _ & Hflask & Hfastapi & _);
    [reflexivity..| |by split].
  vm_compute. apply list_elem_of_here.
Defined.

(** The [except Exception] clauses do not close either: an update that
    sets a quote's text to null fails on the NOT NULL constraint, is
    answered 500, and leaves the connection open. *)
Lemma update_quote_error_keeps_connection_open :
  let r := QuotesApi.update_quote 1 null_text_update None with_quote in
  fst r = Raise (HTTPException 500 "NOT NULL constraint failed: quotes.text")
  ∧ next_handle with_quote ∈ open_handles (snd r)
  ∧ open_handles with_quote = ∅.
Proof.
  cbv zeta. split_and!.
  - by vm_compute.
  - unfold open_handles. apply elem_of_dom. vm_compute. by eexists.
  - by vm_compute.
Qed.

End ConnectionLifetime.

(* ===================================================================== *)
(** ** Validation on create                                               *)
(* ===================================================================== *)

Module CreateValidation.
Import Sqlite Runtime Sessions Samples SqliteFacts SessionFacts CreateUser.





End CreateValidation.

(* ===================================================================== *)
(** ** Updating users                                                     *)
(* ===================================================================== *)

Module UpdateUser.
Import Sqlite Runtime Sessions Samples SqliteFacts SessionFacts.

Lemma count_cons {A} (x : A) l : count (x :: l) = count l + 1.
Proof. unfold count. simpl length. lia. Qed.

Lemma update_user_rows_ok sets id us f :
  (∀ u, set_user_columns sets u = inr (f u)) →
  update_user_rows sets id us
  = inr (count (filter (λ u, u_id u = id) us), update_where u_id id f us).
Proof.
  intros Hf. induction us as [|u us IH]; [done|].
  cbn [update_user_rows]. rewrite IH. unfold update_where. cbn [fmap list_fmap].
  case_bool_decide.
  - rewrite Hf, filter_cons_True, count_cons by done. reflexivity.
  - rewrite filter_cons_False by done. reflexivity.
Qed.

Lemma update_users_ok sets id d f :
  sets ≠ [] →
  (∀ u, set_user_columns sets u = inr (f u)) →
  update_users sets id d
  = Changed (count (users_where_id id d))
      (with_users (update_where u_id id f (users d)) (users_seq d) d).
Proof.
  intros Hnil Hf. unfold update_users.
  rewrite (update_user_rows_ok sets id (users d) f Hf).
  by destruct sets.
Qed.

(** Selecting by key after an update that keeps the keys. *)
Lemma where_updated {A} (key : A → Z) id f (l : list A) :
  (∀ r, key (f r) = key r) →
  filter (λ r, key r = id) (update_where key id f l)
  = f <$> filter (λ r, key r = id) l.
Proof.
  intros Hkey. induction l as [|r l IH]; [done|].
  unfold update_where in *. cbn [fmap list_fmap].
  case_bool_decide.
  - rewrite !filter_cons_True by (by rewrite ?Hkey). cbn [fmap list_fmap].
    by rewrite <- IH.
  - rewrite !filter_cons_False by done. apply IH.
Qed.

Lemma users_where_updated id f d u rest :
  (∀ r, u_id (f r) = u_id r) →
  users_where_id id d = u :: rest →
  users_where_id id (with_users (update_where u_id id f (users d)) (users_seq d) d)
  = f u :: (f <$> rest).
Proof.
  intros Hkey Hex. unfold users_where_id in *. cbn [users with_users].
  rewrite where_updated by done. by rewrite Hex.
Qed.

Lemma set_user_columns_assign upd u sets :
  FastapiApp.upd_email upd ≠ Fastapi.Null →
  sets = ((λ '(k, v), (k, adapt v)) <$> FastapiApp.UserUpdate_dict upd) →
  set_user_columns sets u = inr (assign_user upd u).
Proof.
  intros Hmail ->.
  destruct upd as [[| |e] [| |a]]; try done; destruct u; reflexivity.
Qed.

Lemma fastapi_update_user_run id upd w u rest :
  FastapiApp.UserUpdate_dict upd ≠ [] →
  FastapiApp.upd_email upd ≠ Fastapi.Null →
  users_where_id id (disk w) = u :: rest →
  let sets := (λ '(k, v), (k, adapt v)) <$> FastapiApp.UserUpdate_dict upd in
  FastapiApp.update_user id upd w
  = (Return (assign_user upd u),
     closed_after w
       (with_users (update_where u_id id (assign_user upd) (users (disk w)))
                   (users_seq (disk w)) (disk w))
       [Execute (next_handle w) (SELECT_1_FROM_users_WHERE_id id);
        Execute (next_handle w) (UPDATE_users_SET sets id);
        Commit (next_handle w);
        Execute (next_handle w) (SELECT_star_FROM_users_WHERE_id id);
        Close (next_handle w)]).
Proof.
  intros Hne Hmail Hex sets.
  assert (Hsets : ∀ r, set_user_columns sets r = inr (assign_user upd r))
    by (intros r; by apply set_user_columns_assign).
  assert (Hnil : sets ≠ []).
  { subst sets. by destruct (FastapiApp.UserUpdate_dict upd). }
  pose proof (update_users_ok sets id (disk w) _ Hnil Hsets) as Hupd.
  pose proof (users_where_updated id (assign_user upd) (disk w) u rest
                (λ _, eq_refl) Hex) as Hsel.
  clear Hsets Hnil.
  unfold FastapiApp.update_user, FastapiApp.get_db_connection.
  rewrite bool_decide_eq_false_2 by done.
  run. rewrite Hex. run.
  subst sets. unfold FastapiApp.UserUpdate_dict in *.
  destruct upd as [[| |e] [| |a]]; try done; run_dict.
  all: cbn [app fmap list_fmap Fastapi.dict_entry adapt
            FastapiApp.upd_email FastapiApp.upd_age] in Hupd;
       rewrite Hupd; run.
  all: rewrite Hsel; run; finish.
Qed.

Lemma set_user_columns_assign_json (data : FlaskApp.payload) u :
  data !! "email" ≠ Some PNone →
  set_user_columns
    (match data !! "age" with
     | Some v =>
       match data !! "email" with
       | Some v => [] ++ [("email", adapt v)]
       | None => []
       end ++ [("age", adapt v)]
     | None =>
       match data !! "email" with
       | Some v => [] ++ [("email", adapt v)]
       | None => []
       end
     end) u
  = inr (assign_user_json data u).
Proof.
  intros Hmail. unfold assign_user_json.
  destruct (data !! "email") as [[|z|e]|], (data !! "age") as [v|];
    try done; destruct u; reflexivity.
Qed.

Lemma flask_update_user_run id (data : FlaskApp.payload) w u rest :
  is_Some (data !! "email") ∨ is_Some (data !! "age") →
  data !! "email" ≠ Some PNone →
  users_where_id id (disk w) = u :: rest →
  ∃ sets,
    FlaskApp.update_user id data w
    = (Return (FlaskApp.Message "User updated successfully", 200),
       closed_after w
         (with_users (update_where u_id id (assign_user_json data) (users (disk w)))
                     (users_seq (disk w)) (disk w))
         [Execute (next_handle w) (SELECT_1_FROM_users_WHERE_id id);
          Execute (next_handle w) (UPDATE_users_SET sets id);
          Commit (next_handle w);
          Close (next_handle w)]).
Proof.
  intros Hsome Hmail Hex.
  pose proof (λ r, set_user_columns_assign_json data r Hmail) as Hsets.
  unfold FlaskApp.update_user, FlaskApp.get_db_connection.
  rewrite (bool_decide_eq_false_2 (data = ∅)); cycle 1.
  { intros ->. rewrite !lookup_empty in Hsome. by destruct Hsome as [[? ?]|[? ?]]. }
  match goal with
  | |- context [bool_decide (?l = [])] => set (sets := l) in *
  end.
  assert (Hnil : sets ≠ []).
  { subst sets. destruct (data !! "email"), (data !! "age"); try done.
    by destruct Hsome as [[? ?]|[? ?]]. }
  rewrite bool_decide_eq_false_2 by done.
  exists sets. run. rewrite Hex. run.
  rewrite (update_users_ok sets id (disk w) _ Hnil Hsets). run. finish.
Qed.

Lemma flask_update_user_no_fields id (data : FlaskApp.payload) w :
  data !! "email" = None →
  data !! "age" = None →
  ∃ msg, FlaskApp.update_user id data w = (Return (FlaskApp.Error msg, 400), w).
Proof.
  intros He Ha. unfold FlaskApp.update_user. rewrite He, Ha.
  case_bool_decide; [by eexists|].
  rewrite bool_decide_eq_true_2 by done. by eexists.
Qed.

End UpdateUser.

Module UpdateSpec.
Import Sqlite Runtime Sessions Samples SqliteFacts SessionFacts UpdateUser.

Lemma update_quote_no_fields id upd user_id w :
  QuotesApi.QuoteUpdate_dict upd = [] →
  QuotesApi.update_quote id upd user_id w
  = (Raise (HTTPException 400 "No valid fields to update"), w).
Proof. intros Hnil. unfold QuotesApi.update_quote. by rewrite Hnil. Qed.

Lemma fastapi_update_user_no_fields id upd w :
  FastapiApp.UserUpdate_dict upd = [] →
  FastapiApp.update_user id upd w
  = (Raise (HTTPException 400 "No valid fields to update"), w).
Proof. intros Hnil. unfold FastapiApp.update_user. by rewrite Hnil. Qed.

(** C7.  An update that supplies none of the fields the resource
    recognises is answered 400 by all three handlers, whatever the id
    and whatever the store holds: the handler returns before it opens a
    connection, so the world (store, open connections, history of calls)
    is exactly what it was and 404 cannot be the answer. *)
Theorem update_without_fields_is_bad_request
    (w : world) (id : Z) (data : FlaskApp.payload)
    (upd : FastapiApp.UserUpdate) (qupd : QuotesApi.QuoteUpdate)
    (user_id : option string) :
  data !! "email" = None →
  data !! "age" = None →
  FastapiApp.UserUpdate_dict upd = [] →
  QuotesApi.QuoteUpdate_dict qupd = [] →
  (∃ msg, FlaskApp.update_user id data w = (Return (FlaskApp.Error msg, 400), w))
  ∧ Fastapi.serve Fastapi.HTTP_200_OK (FastapiApp.update_user id upd) w
    = (Fastapi.Failure 400 "No valid fields to update", w)
  ∧ Fastapi.serve Fastapi.HTTP_200_OK (QuotesApi.update_quote id qupd user_id) w
    = (Fastapi.Failure 400 "No valid fields to update", w).
Proof.
  intros He Ha Hupd Hqupd. split_and!.
  - by apply flask_update_user_no_fields.
  - unfold Fastapi.serve. by rewrite fastapi_update_user_no_fields.
  - unfold Fastapi.serve. by rewrite update_quote_no_fields.
Qed.

(** Id 7 is in no table of the empty store, and the answer is still 400. *)
Lemma update_without_fields_is_bad_request_witness :
  let w0 := boot empty_db t0 in
  (∃ msg, FlaskApp.update_user 7 {[ "nickname" := PStr "b" ]} w0
          = (Return (FlaskApp.Error msg, 400), w0))
  ∧ Fastapi.serve Fastapi.HTTP_200_OK (FastapiApp.update_user 7 no_update) w0
    = (Fastapi.Failure 400 "No valid fields to update", w0)
  ∧ Fastapi.serve Fastapi.HTTP_200_OK
      (QuotesApi.update_quote 7 no_quote_update (Some "user123")) w0
    = (Fastapi.Failure 400 "No valid fields to update", w0).
Proof.
  intros w0.
  apply (update_without_fields_is_bad_request w0 7 {[ "nickname" := PStr "b" ]}
           no_update no_quote_update (Some "user123")); reflexivity.
Defined.




(** Why the amended C3 leaves a null email out: the UPDATE then fails
    on the NOT NULL constraint and the FastAPI handler answers 500. *)
Lemma fastapi_update_user_null_email :
  fst (FastapiApp.update_user 1 null_email_update with_bob)
  = Raise (HTTPException 500 "NOT NULL constraint failed: users.email")
  ∧ disk (snd (FastapiApp.update_user 1 null_email_update with_bob))
    = disk with_bob.
Proof. split; by vm_compute. Qed.

End UpdateSpec.

(* ===================================================================== *)
(** ** The quotes handlers                                                *)
(* ===================================================================== *)

Module QuotesFacts.
Import Sqlite Runtime Sessions Samples SqliteFacts SessionFacts QuotesApi.

Lemma dicts_rows (l : list quote_row) : dicts (RowQuote <$> l) = l.
Proof.
  induction l as [|q l IH]; [done|].
  unfold dicts in *. cbn. by rewrite IH.
Qed.

Lemma get_all_quotes_none_run w :
  get_all_quotes None w
  = (Return (plain <$> quotes (disk w)),
     closed_after w (disk w)
       [Execute (next_handle w) SELECT_star_FROM_quotes; Close (next_handle w)]).
Proof.
  unfold get_all_quotes, get_db_connection. run. cbn [truthy]. run.
  rewrite dicts_rows. finish.
Qed.

Lemma get_quote_none_run id w :
  get_quote id None w
  = (match head (quotes_where_id id (disk w)) with
     | Some q => Return (plain q)
     | None => Raise (HTTPException 404 "Quote not found")
     end,
     closed_after w (disk w)
       [Execute (next_handle w) (SELECT_star_FROM_quotes_WHERE_id id);
        Close (next_handle w)]).
Proof.
  unfold get_quote, get_db_connection, check_favorite, reraise_or_500. run.
  destruct (quotes_where_id id (disk w)) as [|q rest]; run; cbn [truthy]; run; finish.
Qed.

Lemma update_quote_none_flag id upd w r :
  fst (update_quote id upd None w) = Return r → is_favorite r = false.
Proof.
  unfold update_quote, get_db_connection, check_favorite, reraise_or_500.
  case_bool_decide; [done|].
  run. cbn [truthy].
  repeat (case_scrutinee; run; try done).
  all: cbn [fst]; try done.
  all: by intros [= <-].
Qed.

Lemma delete_quote_run id w :
  delete_quote id w
  = match quotes_where_id id (disk w) with
    | [] =>
      (Raise (HTTPException 404 "Quote not found"),
       closed_after w (disk w)
         [Execute (next_handle w) (SELECT_1_FROM_quotes_WHERE_id id);
          Close (next_handle w)])
    | _ :: _ =>
      (Return (),
       closed_after w (without_quote id (disk w))
         [Execute (next_handle w) (SELECT_1_FROM_quotes_WHERE_id id);
          Execute (next_handle w) (DELETE_FROM_quotes_WHERE_id id);
          Commit (next_handle w);
          Close (next_handle w)])
    end.
Proof.
  unfold delete_quote, get_db_connection, reraise_or_500. run.
  destruct (quotes_where_id id (disk w)) as [|q rest]; run; [finish|].
  unfold delete_quote_rows. run. finish.
Qed.

Lemma get_favorite_quotes_run user_id w :
  get_favorite_quotes user_id w
  = (Return ((λ quote, {| fields := quote; is_favorite := true |})
               <$> favorite_quotes user_id (disk w)),
     closed_after w (disk w)
       [Execute (next_handle w)
          (SELECT_q_star_FROM_quotes_JOIN_favorites_WHERE_user_id user_id);
        Close (next_handle w)]).
Proof.
  unfold get_favorite_quotes, get_db_connection. run.
  rewrite dicts_rows. finish.
Qed.

Lemma favorite_quotes_in_quotes user_id d q :
  q ∈ favorite_quotes user_id d → q ∈ quotes d.
Proof.
  unfold favorite_quotes. intros (q' & Hin & Hq')%list_elem_of_bind.
  apply list_elem_of_bind in Hin as (f & Hin & _).
  apply list_elem_of_singleton in Hin as ->. done.
Qed.

Lemma remove_favorite_run quote_id user_id w :
  remove_favorite quote_id user_id w
  = (Return (bool_decide (count (favorites_where quote_id user_id (disk w)) > 0)),
     closed_after w (without_favorite quote_id user_id (disk w))
       [Execute (next_handle w)
          (DELETE_FROM_favorites_WHERE_quote_id_AND_user_id quote_id user_id);
        Commit (next_handle w);
        Close (next_handle w)]).
Proof.
  unfold remove_favorite, get_db_connection. run.
  unfold delete_favorite_rows. run. finish.
Qed.

End QuotesFacts.

Module FavoriteFlag.
Import Sqlite Runtime Sessions Samples SqliteFacts SessionFacts QuotesApi QuotesFacts.

(** C9.  With no [user_id], [get_all_quotes] returns every row of the
    quotes table with [is_favorite = false], [get_quote] returns the row
    of that id with [is_favorite = false] (or 404 when there is none),
    and any quote [update_quote] returns has [is_favorite = false]: the
    favorites table is not read, so its content cannot matter. *)
Theorem no_user_id_means_not_favorite
    (w : world) (id : Z) (upd : QuoteUpdate) :
  fst (get_all_quotes None w) = Return (plain <$> quotes (disk w))
  ∧ Forall (λ q, is_favorite q = false) (plain <$> quotes (disk w))
  ∧ fst (get_quote id None w)
    = match head (quotes_where_id id (disk w)) with
      | Some q => Return (plain q)
      | None => Raise (HTTPException 404 "Quote not found")
      end
  ∧ (∀ r, fst (update_quote id upd None w) = Return r → is_favorite r = false).
Proof.
  split_and!.
  - by rewrite get_all_quotes_none_run.
  - apply Forall_fmap, Forall_true. done.
  - by rewrite get_quote_none_run.
  - intros r. apply update_quote_none_flag.
Qed.

(** The quote of [with_favorite] is a favourite of user123, and is
    returned with [is_favorite = false] by the three handlers. *)
Lemma no_user_id_means_not_favorite_witness :
  favorites_where 1 "user123" (disk with_favorite) ≠ []
  ∧ (∃ q, fst (get_all_quotes None with_favorite) = Return [q]
          ∧ is_favorite q = false)
  ∧ (∃ q, fst (get_quote 1 None with_favorite) = Return q
          ∧ is_favorite q = false)
  ∧ (∃ q, fst (update_quote 1 new_category None with_favorite) = Return q
          ∧ q_category (fields q) = Some "Travel"
          ∧ is_favorite q = false).
Proof.
  destruct (no_user_id_means_not_favorite with_favorite 1 new_category)
    as (Hall & _ & Hget & Hupd).
  split_and!.
  - by vm_compute.
  - eexists. split; [exact Hall|reflexivity].
  - eexists. split; [exact Hget|reflexivity].
  - eexists. split_and!; [reflexivity|reflexivity|].
    apply Hupd. reflexivity.
Defined.

End FavoriteFlag.

Module DeleteQuote.
Import Sqlite Runtime Sessions Samples SqliteFacts SessionFacts QuotesApi QuotesFacts.

(** What does hold after a delete: the quote is gone from the quotes
    table, so the join of [get_favorite_quotes] no longer returns it. *)
Lemma deleted_quote_not_listed w id user_id :
  quotes_where_id id (disk w) ≠ [] →
  ∃ l, fst (get_favorite_quotes user_id (snd (delete_quote id w))) = Return l
       ∧ Forall (λ q, q_id (fields q) ≠ id) l.
Proof.
  intros Hex. rewrite delete_quote_run.
  destruct (quotes_where_id id (disk w)) as [|q rest]; [done|].
  rewrite get_favorite_quotes_run. cbn [fst snd closed_after disk].
  eexists. split; [reflexivity|].
  apply Forall_fmap, Forall_forall. intros q' Hq'. cbn.
  apply favorite_quotes_in_quotes in Hq'. unfold without_quote in Hq'.
  cbn [quotes with_quotes] in Hq'.
  by apply list_elem_of_filter in Hq' as [Hne _].
Qed.

(** C1 (fails on the code).  Deleting an existing quote answers 204 and
    removes the quote, and the favorites table afterwards is exactly
    what it was before: [get_db_connection] never turns the
    [foreign_keys] pragma on, so ON DELETE CASCADE does not act and the
    Favorite rows that reference the quote stay in the store. *)
Theorem delete_quote_keeps_favorites
    (w : world) (id : Z) (q : quote_row) (rest : list quote_row) :
  quotes_where_id id (disk w) = q :: rest →
  let r := Fastapi.serve Fastapi.HTTP_204_NO_CONTENT (delete_quote id) w in
  fst r = Fastapi.Ok 204 ()
  ∧ quotes_where_id id (disk (snd r)) = []
  ∧ favorites (disk (snd r)) = favorites (disk w).
Proof.
  intros Hex r. subst r. unfold Fastapi.serve.
  rewrite delete_quote_run, Hex. cbn [fst snd closed_after disk].
  split_and!; [done| |done].
  unfold quotes_where_id, without_quote. cbn [quotes with_quotes].
  apply filter_none. intros q' Hq' Heq.
  by apply list_elem_of_filter in Hq' as [Hne _].
Qed.

(** Quote 1 is a favourite of user123; after [delete_quote 1] the
    Favorite row for (1, user123) is still in the store. *)
Lemma delete_quote_keeps_favorites_witness :
  let r := Fastapi.serve Fastapi.HTTP_204_NO_CONTENT (delete_quote 1) with_favorite in
  fst r = Fastapi.Ok 204 ()
  ∧ quotes (disk (snd r)) = []
  ∧ favorites (disk (snd r))
    = [{| f_id := 1; f_quote_id := 1; f_user_id := "user123"; f_created_at := t0 |}].
Proof.
  intros r.
  destruct (delete_quote_keeps_favorites with_favorite 1
              {| q_id := 1;
                 q_text := text lao_tzu; q_author := author lao_tzu;
                 q_source := source lao_tzu; q_category := category lao_tzu;
                 q_created_at := t0 |} [])
    as (Hok & _ & Hfav); [reflexivity|].
  split_and!; [exact Hok|reflexivity|].
  subst r. rewrite Hfav. reflexivity.
Defined.

End DeleteQuote.

Module RemoveFavorite.
Import Sqlite Runtime Sessions Samples SqliteFacts SessionFacts QuotesApi QuotesFacts.


End RemoveFavorite.

Module AddFavorite.
Import Sqlite Runtime Sessions Samples SqliteFacts SessionFacts QuotesApi QuotesFacts.

Lemma add_favorite_run quote_id fav w :
  add_favorite quote_id fav w
  = match quotes_where_id quote_id (disk w) with
    | [] =>
      (Raise (HTTPException 404 "Quote not found"),
       closed_after w (disk w)
         [Execute (next_handle w) (SELECT_1_FROM_quotes_WHERE_id quote_id);
          Close (next_handle w)])
    | _ :: _ =>
      if bool_decide (favorites_where quote_id (user_id fav) (disk w) ≠ [])
      then
        (Return true,
         closed_after w (disk w)
           [Execute (next_handle w) (SELECT_1_FROM_quotes_WHERE_id quote_id);
            Execute (next_handle w) (INSERT_INTO_favorites quote_id (user_id fav));
            Close (next_handle w)])
      else
        (Return true,
         closed_after w
           (add_favorite_row
              (new_favorite quote_id (user_id fav) (now w) (disk w)) (disk w))
           [Execute (next_handle w) (SELECT_1_FROM_quotes_WHERE_id quote_id);
            Execute (next_handle w) (INSERT_INTO_favorites quote_id (user_id fav));
            Commit (next_handle w);
            Close (next_handle w)])
    end.
Proof.
  unfold add_favorite, get_db_connection, reraise_or_500. run.
  destruct (quotes_where_id quote_id (disk w)) as [|q rest]; run; [finish|].
  unfold insert_favorite. cbn [andb].
  case_bool_decide; run; finish.
Qed.

(** Under the UNIQUE constraint a pair has at most one row. *)
Lemma unique_where quote_id user_id (l : list favorite_row) :
  NoDup (favorite_key <$> l) →
  (length (filter (λ f, f_quote_id f = quote_id ∧ f_user_id f = user_id) l) ≤ 1)%nat.
Proof.
  induction l as [|f l IH]; [simpl; lia|].
  rewrite fmap_cons, NoDup_cons. intros [Hnotin Hnodup].
  destruct (decide (f_quote_id f = quote_id ∧ f_user_id f = user_id)) as [[Hq Hu]|Hne].
  - rewrite filter_cons_True by done.
    rewrite filter_none; [simpl; lia|].
    intros g Hg [Hgq Hgu]. apply Hnotin.
    apply list_elem_of_fmap. exists g. split; [|done].
    unfold favorite_key. by rewrite Hq, Hu, Hgq, Hgu.
  - rewrite filter_cons_False by done. by apply IH.
Qed.




End AddFavorite.

Module BatchCreate.
Import Sqlite Runtime Sessions Samples SqliteFacts SessionFacts QuotesApi QuotesFacts.

Lemma quotes_where_added quote t d :
  quotes_where_id (q_id (new_quote quote t d)) (add_quote (new_quote quote t d) d)
  = [new_quote quote t d].
Proof. unfold add_quote. by eapply quotes_where_new_id. Qed.

(** One turn of the loop of [create_quotes_batch] on an open connection
    whose view is [v]. *)
Lemma batch_step_run quote cur created w v :
  conns w !! connection_of cur = Some {| view := v; foreign_keys := false |} →
  let h := connection_of cur in
  let r := new_quote quote (now w) v in
  create_quotes_batch_step quote (cur, created) w
  = (Return ({| connection_of := h; rows := [RowQuote r];
                lastrowid := q_id r; rowcount := -1 |},
             created ++ [plain r]),
     {| disk := disk w; now := now w;
        conns := <[h := {| view := add_quote r v; foreign_keys := false |}]> (conns w);
        next_handle := next_handle w;
        log := log w ++ [Execute h (INSERT_INTO_quotes (text quote) (author quote)
                                      (source quote) (category quote));
                         Execute h (SELECT_star_FROM_quotes_WHERE_id (q_id r))] |}).
Proof.
  intros Hconn h r. subst h r.
  unfold create_quotes_batch_step. run. rewrite Hconn. run.
  unfold insert_quote. run.
  pose proof (quotes_where_added quote (now w) v) as Hsel.
  unfold add_quote, new_quote in Hsel. cbn [q_id] in Hsel. rewrite Hsel.
  run. unfold plain, new_quote, add_quote. cbn [q_id].
  rewrite <- app_assoc. reflexivity.
Qed.

(** The whole loop. *)
Lemma for_each_batch quotes :
  ∀ (w : world) (v : database) (cur : cursor) (created : list Quote),
    conns w !! connection_of cur = Some {| view := v; foreign_keys := false |} →
    ∃ cur',
      for_each quotes create_quotes_batch_step (cur, created) w
      = (Return (cur', created ++ (plain <$> batch_rows (now w) quotes v)),
         {| disk := disk w; now := now w;
            conns := <[connection_of cur :=
                         {| view := batch_db (now w) quotes v;
                            foreign_keys := false |}]> (conns w);
            next_handle := next_handle w;
            log := log w ++ batch_events (connection_of cur) (now w) quotes v |}).
Proof.
  induction quotes as [|quote rest IH]; intros w v cur created Hconn.
  - exists cur.
    cbn [for_each batch_rows batch_db batch_events fmap list_fmap].
    rewrite !app_nil_r, insert_id by done. by destruct w.
  - cbn [for_each]. unfold mbind at 1, M_bind at 1.
    rewrite (batch_step_run quote cur created w v Hconn). cbv zeta.
    match goal with
    | |- context [for_each rest _ (?c, ?l) ?w1] =>
      destruct (IH w1 (add_quote (new_quote quote (now w) v) v) c l)
        as (cur' & Hrun)
    end.
    { cbn [conns connection_of]. by rewrite lookup_insert_eq. }
    exists cur'. rewrite Hrun.
    cbn [now disk conns next_handle log connection_of].
    cbn [batch_rows batch_db batch_events fmap list_fmap].
    rewrite insert_insert_eq, <- !app_assoc. reflexivity.
Qed.

Lemma create_quotes_batch_run quotes w :
  create_quotes_batch quotes w
  = (Return (plain <$> batch_rows (now w) quotes (disk w)),
     closed_after w (batch_db (now w) quotes (disk w))
       (batch_events (next_handle w) (now w) quotes (disk w)
        ++ [Commit (next_handle w); Close (next_handle w)])).
Proof.
  unfold create_quotes_batch, get_db_connection. run.
  match goal with
  | |- context [for_each quotes _ (?c, _) ?w1] =>
    destruct (for_each_batch quotes w1 (disk w) c []) as (cur' & Hrun)
  end.
  { cbn [conns connection_of]. by rewrite lookup_insert_eq. }
  rewrite Hrun. run. finish.
Qed.

Lemma batch_db_quotes t quotes_in d :
  quotes (batch_db t quotes_in d) = quotes d ++ batch_rows t quotes_in d.
Proof.
  revert d. induction quotes_in as [|quote rest IH]; intros d.
  - cbn. by rewrite app_nil_r.
  - cbn [batch_db batch_rows]. rewrite IH. cbn [quotes add_quote with_quotes].
    by rewrite <- app_assoc.
Qed.

Lemma batch_db_favorites t quotes_in d :
  favorites (batch_db t quotes_in d) = favorites d.
Proof.
  revert d. induction quotes_in as [|quote rest IH]; intros d; [done|].
  cbn [batch_db]. by rewrite IH.
Qed.

Lemma batch_rows_content t quotes_in d :
  row_content <$> batch_rows t quotes_in d = payload_content <$> quotes_in.
Proof.
  revert d. induction quotes_in as [|quote rest IH]; intros d; [done|].
  cbn [batch_rows fmap list_fmap]. f_equal. apply IH.
Qed.

Lemma batch_events_execute h t quotes_in d :
  Forall (λ e, ∃ s, e = Execute h s) (batch_events h t quotes_in d)
  ∧ length (batch_events h t quotes_in d) = (2 * length quotes_in)%nat.
Proof.
  revert d. induction quotes_in as [|quote rest IH]; intros d.
  - split; [constructor|done].
  - destruct (IH (add_quote (new_quote quote t d) d)) as [Hall Hlen].
    cbn [batch_events]. split.
    + repeat constructor; eauto.
    + cbn [length]. rewrite Hlen. lia.
Qed.

(** Each new row gets an id above every id the table held before it. *)
Lemma batch_rows_ids_increase t quotes_in d r :
  r ∈ batch_rows t quotes_in d →
  quotes_seq d < q_id r ∧ ∀ q, q ∈ quotes d → q_id q < q_id r.
Proof.
  revert d. induction quotes_in as [|quote rest IH]; intros d Hr.
  - by apply elem_of_nil in Hr.
  - cbn [batch_rows] in Hr. apply elem_of_cons in Hr as [->|Hr].
    + split; [apply next_rowid_above_seq|].
      intros q Hq. apply next_rowid_above_ids. by apply list_elem_of_fmap_2.
    + apply IH in Hr as [Hseq Hids]. cbn [quotes_seq quotes add_quote with_quotes] in *.
      pose proof (next_rowid_above_seq (quotes_seq d) (q_id <$> quotes d)).
      cbn [new_quote q_id] in Hseq. split; [lia|].
      intros q Hq. apply Hids. apply elem_of_app. by left.
Qed.

(** C10.  [create_quotes_batch] answers 201 with one record per payload,
    in the order of the payloads, each carrying the payload's text,
    author, source and category and [is_favorite = false]; the records
    are the rows appended, in that order, to the quotes table; the
    handler executes two statements per payload (the INSERT and the
    SELECT that reads the row back), then commits once and closes. *)
Theorem create_quotes_batch_in_order (w : world) (quotes_in : list QuoteCreate) :
  let h := next_handle w in
  let r := Fastapi.serve Fastapi.HTTP_201_CREATED (create_quotes_batch quotes_in) w in
  ∃ rows evs,
    fst r = Fastapi.Ok 201 (plain <$> rows)
    ∧ Forall (λ q, is_favorite q = false) (plain <$> rows)
    ∧ row_content <$> rows = payload_content <$> quotes_in
    ∧ quotes (disk (snd r)) = quotes (disk w) ++ rows
    ∧ favorites (disk (snd r)) = favorites (disk w)
    ∧ log (snd r) = log w ++ Connect h :: evs ++ [Commit h; Close h]
    ∧ Forall (λ e, ∃ s, e = Execute h s) evs
    ∧ length evs = (2 * length quotes_in)%nat
    ∧ (h ∉ open_handles (snd r)).
Proof.
  intros h r. subst h r. unfold Fastapi.serve.
  rewrite create_quotes_batch_run. cbn [fst snd].
  exists (batch_rows (now w) quotes_in (disk w)),
         (batch_events (next_handle w) (now w) quotes_in (disk w)).
  destruct (batch_events_execute (next_handle w) (now w) quotes_in (disk w))
    as [Hall Hlen].
  split_and!; try done.
  - apply Forall_fmap, Forall_true. done.
  - apply batch_rows_content.
  - apply batch_db_quotes.
  - apply batch_db_favorites.
  - apply closed_after_handle.
Qed.

End BatchCreate.

(* ===================================================================== *)
(** ** The constraints of the schema are invariants                       *)
(* ===================================================================== *)

Module Constraints.
Import Sqlite Runtime Sessions SqliteFacts SessionFacts.

Lemma NoDup_fmap_filter {A B} (f : A → B) (P : A → Prop) `{!∀ x, Decision (P x)}
    (l : list A) :
  NoDup (f <$> l) → NoDup (f <$> filter P l).
Proof.
  induction l as [|x l IH]; [done|].
  rewrite fmap_cons, NoDup_cons. intros [Hx Hl].
  destruct (decide (P x)).
  - rewrite filter_cons_True, fmap_cons by done. apply NoDup_cons. split; [|auto].
    intros (y & Hy & Hin)%list_elem_of_fmap.
    apply list_elem_of_filter in Hin as [_ Hin].
    apply Hx. rewrite Hy. by apply list_elem_of_fmap_2.
  - rewrite filter_cons_False by done. auto.
Qed.

Lemma elem_of_fmap_filter {A B} (f : A → B) (P : A → Prop) `{!∀ x, Decision (P x)} (l : list A) (y : B) :
  y ∈ f <$> filter P l → y ∈ f <$> l.
Proof.
  intros (x & -> & Hin)%list_elem_of_fmap.
  apply list_elem_of_filter in Hin as [_ Hin]. by apply list_elem_of_fmap_2.
Qed.

Lemma NoDup_snoc_fresh {A} (l : list A) x : NoDup l → x ∉ l → NoDup (l ++ [x]).
Proof.
  intros Hl Hx. apply NoDup_app. split_and!; [done| |apply NoDup_singleton].
  intros y Hy Hyx. apply list_elem_of_singleton in Hyx as ->. done.
Qed.

Lemma seq_bound_snoc ids seq i :
  (∀ j, j ∈ ids → 0 < j ≤ seq) →
  i ∈ ids ++ [next_rowid seq ids] → 0 < i ≤ next_rowid seq ids.
Proof.
  intros Hids Hi. pose proof (next_rowid_above_seq seq ids).
  apply elem_of_app in Hi as [Hi|Hi].
  - apply Hids in Hi. lia.
  - apply list_elem_of_singleton in Hi as ->. pose proof (next_rowid_pos seq ids). lia.
Qed.

Lemma insert_user_keeps_ok a b c t d id d' :
  db_ok d → insert_user a b c t d = Inserted id d' → db_ok d'.
Proof.
  intros [] Hins. unfold insert_user in Hins.
  repeat case_match; try done. injection Hins as <- <-.
  case_bool_decide as Hfresh; [done|].
  split; cbn [users users_seq quotes quotes_seq favorites favorites_seq with_users]; try done.
  - rewrite fmap_app. apply NoDup_snoc_fresh; [done|]. apply next_rowid_fresh.
  - rewrite fmap_app. by apply NoDup_snoc_fresh.
  - rewrite fmap_app. intros i. by apply seq_bound_snoc.
Qed.

Lemma set_user_columns_keys sets u u' :
  set_user_columns sets u = inr u' →
  u_id u' = u_id u ∧ u_username u' = u_username u.
Proof.
  revert u. induction sets as [|[col v] rest IH]; intros u.
  - by intros [= <-].
  - cbn [set_user_columns]. unfold set_user_column.
    repeat case_match; try done; intros Hrest; apply IH in Hrest;
      simplify_eq; done.
Qed.

Lemma update_user_rows_keys sets id us n us' :
  update_user_rows sets id us = inr (n, us') →
  u_id <$> us' = u_id <$> us ∧ u_username <$> us' = u_username <$> us.
Proof.
  revert n us'. induction us as [|u us IH]; intros n us'.
  - by intros [= <- <-].
  - cbn [update_user_rows]. repeat case_match; try done; intros [= <- <-].
    + destruct (IH _ _ eq_refl) as [Hi Hn].
      match goal with H : set_user_columns _ _ = inr _ |- _ =>
        apply set_user_columns_keys in H as [Hi' Hn'] end.
      by rewrite !fmap_cons, Hi, Hn, Hi', Hn'.
    + destruct (IH _ _ eq_refl) as [Hi Hn]. by rewrite !fmap_cons, Hi, Hn.
Qed.

Lemma update_users_keeps_ok sets id d n d' :
  db_ok d → update_users sets id d = Changed n d' → db_ok d'.
Proof.
  intros [] Hupd. unfold update_users in Hupd.
  repeat case_match; try done. injection Hupd as <- <-.
  match goal with H : update_user_rows _ _ _ = inr _ |- _ =>
    apply update_user_rows_keys in H as [Hids Hnames] end.
  split; cbn [users users_seq quotes quotes_seq favorites favorites_seq with_users];
    rewrite ?Hids, ?Hnames; done.
Qed.

Lemma delete_user_rows_keeps_ok id d n d' :
  db_ok d → delete_user_rows id d = Changed n d' → db_ok d'.
Proof.
  intros [] [= <- <-]. ok_fields.
  - by apply NoDup_fmap_filter.
  - by apply NoDup_fmap_filter.
  - intros i Hi%elem_of_fmap_filter. auto.
Qed.

Lemma insert_quote_keeps_ok a b c e t d id d' :
  db_ok d → insert_quote a b c e t d = Inserted id d' → db_ok d'.
Proof.
  intros [] [= <- <-]. ok_fields.
  - rewrite fmap_app. apply NoDup_snoc_fresh; [done|]. apply next_rowid_fresh.
  - rewrite fmap_app. intros i. by apply seq_bound_snoc.
Qed.

Lemma set_quote_columns_keys sets q q' :
  set_quote_columns sets q = inr q' → q_id q' = q_id q.
Proof.
  revert q. induction sets as [|[col v] rest IH]; intros q.
  - by intros [= <-].
  - cbn [set_quote_columns]. unfold set_quote_column.
    repeat case_match; try done; intros Hrest; apply IH in Hrest;
      simplify_eq; done.
Qed.

Lemma update_quote_rows_keys sets id qs n qs' :
  update_quote_rows sets id qs = inr (n, qs') → q_id <$> qs' = q_id <$> qs.
Proof.
  revert n qs'. induction qs as [|q qs IH]; intros n qs'.
  - by intros [= <- <-].
  - cbn [update_quote_rows]. repeat case_match; try done; intros [= <- <-].
    + match goal with H : set_quote_columns _ _ = inr _ |- _ =>
        apply set_quote_columns_keys in H as Hi' end.
      by rewrite !fmap_cons, (IH _ _ eq_refl), Hi'.
    + by rewrite !fmap_cons, (IH _ _ eq_refl).
Qed.

Lemma update_quotes_keeps_ok sets id d n d' :
  db_ok d → update_quotes sets id d = Changed n d' → db_ok d'.
Proof.
  intros [] Hupd. unfold update_quotes in Hupd.
  repeat case_match; try done. injection Hupd as <- <-.
  match goal with H : update_quote_rows _ _ _ = inr _ |- _ =>
    apply update_quote_rows_keys in H as Hids end.
  ok_fields; rewrite ?Hids; done.
Qed.

Lemma delete_quote_rows_keeps_ok fk id d n d' :
  db_ok d → delete_quote_rows fk id d = Changed n d' → db_ok d'.
Proof.
  intros [] [= <- <-]. destruct fk; ok_fields.
  all: try (by apply NoDup_fmap_filter).
  all: try (intros i Hi%elem_of_fmap_filter; auto).
Qed.

Lemma insert_favorite_keeps_ok fk q u t d id d' :
  db_ok d → insert_favorite fk q u t d = Inserted id d' → db_ok d'.
Proof.
  intros [] Hins. unfold insert_favorite in Hins.
  case_bool_decide as Hpair; [done|].
  destruct (fk && _); [done|]. injection Hins as <- <-.
  ok_fields.
  - rewrite fmap_app. apply NoDup_snoc_fresh; [done|]. apply next_rowid_fresh.
  - rewrite fmap_app. intros i. by apply seq_bound_snoc.
  - unfold unique_favorites in *. cbn [favorites with_favorites]. rewrite fmap_app.
    apply NoDup_snoc_fresh; [done|].
    intros (f & Hkey & Hf)%list_elem_of_fmap.
    unfold favorite_key in Hkey. cbn in Hkey. injection Hkey as Hq Hu.
    eapply (filter_nil_not_elem_of _ _ f Hpair); [|done]. by split.
Qed.

Lemma delete_favorite_rows_keeps_ok q u d n d' :
  db_ok d → delete_favorite_rows q u d = Changed n d' → db_ok d'.
Proof.
  intros [] [= <- <-]. ok_fields.
  - by apply NoDup_fmap_filter.
  - intros i Hi%elem_of_fmap_filter. auto.
  - by apply NoDup_fmap_filter.
Qed.

(** Every statement keeps the constraints of the schema. *)
Lemma run_stmt_keeps_ok fk t s d :
  db_ok d →
  match run_stmt fk t s d with
  | Inserted _ d' | Changed _ d' => db_ok d'
  | _ => True
  end.
Proof.
  intros Hok.
  destruct s; cbn [run_stmt]; try done.
  all: match goal with |- match ?r with _ => _ end => destruct r eqn:Hr end; try done.
  all: eauto 3 using insert_user_keeps_ok, update_users_keeps_ok, delete_user_rows_keeps_ok,
         insert_quote_keeps_ok, update_quotes_keeps_ok, delete_quote_rows_keeps_ok,
         insert_favorite_keeps_ok, delete_favorite_rows_keeps_ok.
  all: try (unfold delete_user_rows, delete_quote_rows, delete_favorite_rows,
              insert_quote in Hr; done).
  - exfalso. unfold insert_user in Hr. by repeat case_match.
  - exfalso. unfold update_users in Hr. by repeat case_match.
  - exfalso. unfold update_quotes in Hr. by repeat case_match.
  - exfalso. unfold insert_favorite in Hr. by repeat case_match.
Qed.

Lemma preserves_ret {A} (a : A) : preserves world_ok (mret a).
Proof. by intros w Hw. Qed.

Lemma preserves_raise {A} e : preserves world_ok (raise e : M A).
Proof. by intros w Hw. Qed.

Lemma preserves_bind {A B} (m : M A) (k : A → M B) :
  preserves world_ok m → (∀ a, preserves world_ok (k a)) →
  preserves world_ok (m ≫= k).
Proof.
  intros Hm Hk w Hw. specialize (Hm w Hw).
  unfold mbind, M_bind. destruct (m w) as [[a|e] w']; cbn [snd] in *; [|done].
  by apply Hk.
Qed.

Lemma preserves_try_except {A} (body : M A) handler :
  preserves world_ok body → (∀ e, preserves world_ok (handler e)) →
  preserves world_ok (try_except body handler).
Proof.
  intros Hm Hk w Hw. specialize (Hm w Hw).
  unfold try_except. destruct (body w) as [[a|e] w']; cbn [snd] in *; [done|].
  by apply Hk.
Qed.

Lemma preserves_connect : preserves world_ok sqlite3_connect.
Proof.
  intros w [Hdisk Hconns]. split; [done|]. cbn [snd sqlite3_connect conns].
  intros h c [[<- <-]|[_ Hc]]%lookup_insert_Some; eauto.
Qed.

Lemma preserves_cursor conn : preserves world_ok (conn_cursor conn).
Proof. by intros w Hw. Qed.

Lemma preserves_execute cur s : preserves world_ok (execute cur s).
Proof.
  intros w [Hdisk Hconns]. unfold execute.
  destruct (conns w !! connection_of cur) as [c|] eqn:Hc; [|done].
  pose proof (run_stmt_keeps_ok (foreign_keys c) (now w) s (view c) (Hconns _ _ Hc)) as Hok.
  destruct (run_stmt _ _ _ _) as [rs|id d|n d|[msg|msg]]; cbn [snd]; split; try done.
  all: cbn [set_conn record conns view].
  all: intros h0 c0 Hc0.
  all: apply lookup_insert_Some in Hc0 as [[<- <-]|[_ Hc0]]; eauto.
Qed.

Lemma preserves_commit conn : preserves world_ok (commit conn).
Proof.
  intros w [Hdisk Hconns]. unfold commit.
  destruct (conns w !! conn) as [c|] eqn:Hc; [|done].
  split; cbn [snd disk conns]; eauto.
Qed.

Lemma preserves_close conn : preserves world_ok (close conn).
Proof.
  intros w [Hdisk Hconns]. split; [done|]. cbn [snd close conns].
  intros h c [_ Hc]%lookup_delete_Some. eauto.
Qed.

Lemma preserves_dict_user r : preserves world_ok (dict_user r).
Proof. intros w Hw. unfold dict_user. by repeat case_match. Qed.

Lemma preserves_dict_quote r : preserves world_ok (dict_quote r).
Proof. intros w Hw. unfold dict_quote. by repeat case_match. Qed.

Create HintDb preserve.
#[export] Hint Resolve preserves_ret preserves_raise preserves_connect
  preserves_cursor preserves_execute preserves_commit preserves_close
  preserves_dict_user preserves_dict_quote : preserve.

(** Structural proof that a handler keeps [world_ok]. *)
Ltac preserve :=
  repeat first
    [ apply preserves_bind; [|intros ?]
    | apply preserves_try_except; [|intros ?]
    | solve [auto with preserve]
    | match goal with
      | |- preserves _ (match ?x with _ => _ end) => destruct x
      | |- preserves _ (if ?x then _ else _) => destruct x
      | |- preserves _ (let _ := _ in _) => cbv zeta
      end ].

Lemma for_each_keeps_ok {A S} (l : list A) (body : A → S → M S) :
  (∀ a s, preserves world_ok (body a s)) →
  ∀ s, preserves world_ok (QuotesApi.for_each l body s).
Proof.
  intros Hbody. induction l as [|a l IH]; intros s; cbn [QuotesApi.for_each];
    preserve; try apply IH.
Qed.

Ltac unfold_handlers :=
  unfold FlaskApp.create_user, FlaskApp.get_user, FlaskApp.update_user,
    FlaskApp.delete_user, FlaskApp.get_db_connection, FlaskApp.subscript,
    FastapiApp.create_user, FastapiApp.get_user, FastapiApp.update_user,
    FastapiApp.delete_user, FastapiApp.get_db_connection, Fastapi.subscript,
    QuotesApi.create_quote, QuotesApi.create_quotes_batch,
    QuotesApi.get_all_quotes, QuotesApi.get_quote, QuotesApi.update_quote,
    QuotesApi.delete_quote, QuotesApi.add_favorite, QuotesApi.remove_favorite,
    QuotesApi.get_favorite_quotes, QuotesApi.get_db_connection,
    QuotesApi.reraise_or_500, QuotesApi.check_favorite.

(** Every handler of the User resource keeps the constraints. *)
Lemma user_handlers_keep_ok req :
  preserves world_ok (λ w, (Return (), snd (History.serve_one req w))).
Proof.
  assert (Hsnd : ∀ A (m : M A),
             preserves world_ok m → preserves world_ok (λ w, (Return (), snd (m w))))
    by (intros A m Hm w Hw; exact (Hm w Hw)).
  destruct req; cbn [History.serve_one snd]; apply Hsnd; unfold_handlers; preserve.
Qed.

Lemma serve_all_keeps_ok reqs w :
  world_ok w → world_ok (snd (History.serve_all reqs w)).
Proof.
  revert w. induction reqs as [|req rest IH]; intros w Hw; [done|].
  cbn [History.serve_all].
  pose proof (user_handlers_keep_ok req w Hw) as Hone. cbn [snd] in Hone.
  destruct (History.serve_one req w) as [issued w1]. cbn [snd] in Hone.
  specialize (IH w1 Hone).
  destruct (History.serve_all rest w1) as [ids w2]. done.
Qed.

(** Every handler of the quotes service keeps the constraints. *)
Lemma quotes_handlers_keep_ok :
  (∀ quote, preserves world_ok (QuotesApi.create_quote quote))
  ∧ (∀ quotes, preserves world_ok (QuotesApi.create_quotes_batch quotes))
  ∧ (∀ user_id, preserves world_ok (QuotesApi.get_all_quotes user_id))
  ∧ (∀ id user_id, preserves world_ok (QuotesApi.get_quote id user_id))
  ∧ (∀ id upd user_id, preserves world_ok (QuotesApi.update_quote id upd user_id))
  ∧ (∀ id, preserves world_ok (QuotesApi.delete_quote id))
  ∧ (∀ id fav, preserves world_ok (QuotesApi.add_favorite id fav))
  ∧ (∀ id user_id, preserves world_ok (QuotesApi.remove_favorite id user_id))
  ∧ (∀ user_id, preserves world_ok (QuotesApi.get_favorite_quotes user_id)).
Proof.
  split_and!; intros; unfold_handlers; preserve.
  apply for_each_keeps_ok. intros q [c l].
  unfold QuotesApi.create_quotes_batch_step. preserve.
Qed.

Lemma empty_db_ok : db_ok empty_db.
Proof.
  split; cbn; try apply NoDup_nil_2; try (intros i Hi; by apply elem_of_nil in Hi).
Qed.

(** The empty store satisfies the constraints, so every store the
    handlers can reach from it does. *)
Lemma boot_ok t : world_ok (boot empty_db t).
Proof.
  split; [apply empty_db_ok|]. intros h c Hc. cbn in Hc.
  by rewrite lookup_empty in Hc.
Qed.

End Constraints.

(** * The User handlers composed: create, read, update, delete and list. *)
Module UserRoundTrips.
Import Sqlite Runtime Sessions Samples History Observations SqliteFacts SessionFacts
  CreateUser UpdateUser QuotesApi QuotesFacts AddFavorite BatchCreate Constraints.

Lemma flask_dicts_rows (l : list user_row) : FlaskApp.dicts (RowUser <$> l) = l.
Proof. induction l as [|u l IH]; [done|]. unfold FlaskApp.dicts in *. cbn. by rewrite IH. Qed.

Lemma fastapi_dicts_rows (l : list user_row) : FastapiApp.dicts (RowUser <$> l) = l.
Proof. induction l as [|u l IH]; [done|]. unfold FastapiApp.dicts in *. cbn. by rewrite IH. Qed.

Lemma flask_get_all_users_run w :
  FlaskApp.get_all_users w
  = (Return (FlaskApp.Users (users (disk w)), 200),
     closed_after w (disk w)
       [Execute (next_handle w) SELECT_star_FROM_users; Close (next_handle w)]).
Proof.
  unfold FlaskApp.get_all_users, FlaskApp.get_db_connection. run.
  rewrite flask_dicts_rows. finish.
Qed.

Lemma fastapi_get_all_users_run w :
  FastapiApp.get_all_users w
  = (Return (users (disk w)),
     closed_after w (disk w)
       [Execute (next_handle w) SELECT_star_FROM_users; Close (next_handle w)]).
Proof.
  unfold FastapiApp.get_all_users, FastapiApp.get_db_connection. run.
  rewrite fastapi_dicts_rows. finish.
Qed.

Lemma flask_get_user_run id w :
  FlaskApp.get_user id w
  = (match head (users_where_id id (disk w)) with
     | Some u => Return (FlaskApp.UserBody u, 200)
     | None => Return (FlaskApp.Error "User not found", 404)
     end,
     closed_after w (disk w)
       [Execute (next_handle w) (SELECT_star_FROM_users_WHERE_id id);
        Close (next_handle w)]).
Proof.
  unfold FlaskApp.get_user, FlaskApp.get_db_connection. run.
  destruct (users_where_id id (disk w)) as [|u rest]; run; finish.
Qed.

Lemma fastapi_get_user_run id w :
  FastapiApp.get_user id w
  = (match head (users_where_id id (disk w)) with
     | Some u => Return u
     | None => Raise (HTTPException 404 "User not found")
     end,
     closed_after w (disk w)
       [Execute (next_handle w) (SELECT_star_FROM_users_WHERE_id id);
        Close (next_handle w)]).
Proof.
  unfold FastapiApp.get_user, FastapiApp.get_db_connection. run.
  destruct (users_where_id id (disk w)) as [|u rest]; run; finish.
Qed.

Lemma flask_delete_user_run id w :
  FlaskApp.delete_user id w
  = match users_where_id id (disk w) with
    | [] =>
      (Return (FlaskApp.Error "User not found", 404),
       closed_after w (disk w)
         [Execute (next_handle w) (SELECT_1_FROM_users_WHERE_id id);
          Close (next_handle w)])
    | _ :: _ =>
      (Return (FlaskApp.Message "User deleted successfully", 200),
       closed_after w (without_user id (disk w))
         [Execute (next_handle w) (SELECT_1_FROM_users_WHERE_id id);
          Execute (next_handle w) (DELETE_FROM_users_WHERE_id id);
          Commit (next_handle w);
          Close (next_handle w)])
    end.
Proof.
  unfold FlaskApp.delete_user, FlaskApp.get_db_connection. run.
  destruct (users_where_id id (disk w)) as [|u rest]; run; [finish|].
  unfold delete_user_rows. run. finish.
Qed.

Lemma fastapi_delete_user_run id w :
  FastapiApp.delete_user id w
  = match users_where_id id (disk w) with
    | [] =>
      (Raise (HTTPException 404 "User not found"),
       closed_after w (disk w)
         [Execute (next_handle w) (SELECT_1_FROM_users_WHERE_id id);
          Close (next_handle w)])
    | _ :: _ =>
      (Return (),
       closed_after w (without_user id (disk w))
         [Execute (next_handle w) (SELECT_1_FROM_users_WHERE_id id);
          Execute (next_handle w) (DELETE_FROM_users_WHERE_id id);
          Commit (next_handle w);
          Close (next_handle w)])
    end.
Proof.
  unfold FastapiApp.delete_user, FastapiApp.get_db_connection. run.
  destruct (users_where_id id (disk w)) as [|u rest]; run; [finish|].
  unfold delete_user_rows. run. finish.
Qed.



Lemma where_unique {A} (key : A → Z) (l : list A) (r : A) :
  NoDup (key <$> l) → r ∈ l → filter (λ x, key x = key r) l = [r].
Proof.
  induction l as [|x l IH]; intros Hnd Hr; [by apply elem_of_nil in Hr|].
  rewrite fmap_cons, NoDup_cons in Hnd. destruct Hnd as [Hx Hnd].
  apply elem_of_cons in Hr as [->|Hr].
  - rewrite filter_cons_True by done. f_equal.
    apply filter_none. intros y Hy Heq. apply Hx. rewrite <- Heq.
    by apply list_elem_of_fmap_2.
  - rewrite filter_cons_False; [by apply IH|].
    intros Heq. apply Hx. rewrite Heq. by apply list_elem_of_fmap_2.
Qed.



Lemma closed_after_unchanged w evs :
  unchanged_and_closed w (closed_after w (disk w) evs).
Proof. split; [done|apply closed_after_handle]. Qed.

(** X2.  Deleting an existing user answers 200 (Flask) or 204
    (FastAPI), removes the rows of that id and no other row, leaves the
    AUTOINCREMENT high-water mark as it was, and a [get_user] on the
    same id afterwards answers 404. *)
Theorem delete_user_then_get_user
    (w : world) (id : Z) (u : user_row) (rest : list user_row) :
  users_where_id id (disk w) = u :: rest →
  let flask := FlaskApp.delete_user id w in
  let fastapi := Fastapi.serve Fastapi.HTTP_204_NO_CONTENT (FastapiApp.delete_user id) w in
  fst flask = Return (FlaskApp.Message "User deleted successfully", 200)
  ∧ fst fastapi = Fastapi.Ok 204 ()
  ∧ fst (FlaskApp.get_user id (snd flask))
    = Return (FlaskApp.Error "User not found", 404)
  ∧ fst (FastapiApp.get_user id (snd fastapi))
    = Raise (HTTPException 404 "User not found")
  ∧ users (disk (snd flask)) = filter (λ r, u_id r ≠ id) (users (disk w))
  ∧ disk (snd fastapi) = disk (snd flask)
  ∧ users_seq (disk (snd flask)) = users_seq (disk w).
Proof.
  intros Hex flask fastapi. subst flask fastapi. unfold Fastapi.serve.
  rewrite flask_delete_user_run, fastapi_delete_user_run, Hex. cbn [fst snd].
  rewrite flask_get_user_run, fastapi_get_user_run. cbn [fst closed_after disk].
  assert (Hgone : users_where_id id (without_user id (disk w)) = []).
  { unfold users_where_id, without_user. cbn [users with_users].
    apply filter_none. intros r Hr Heq.
    by apply list_elem_of_filter in Hr as [Hne _]. }
  rewrite Hgone. done.
Qed.

Lemma delete_user_then_get_user_witness :
  fst (FlaskApp.get_user 1 (snd (FlaskApp.delete_user 1 with_bob)))
  = Return (FlaskApp.Error "User not found", 404)
  ∧ users (disk (snd (FlaskApp.delete_user 1 with_bob))) = [].
Proof.
  destruct (delete_user_then_get_user with_bob 1 bob_row [])
    as (_ & _ & Hget & _ & Husers & _); [reflexivity|].
  split; [exact Hget|]. rewrite Husers. reflexivity.
Defined.



Lemma fmap_update_where {A B} (g : A → B) (key : A → Z) id f (l : list A) :
  (∀ r, g (f r) = g r) → g <$> update_where key id f l = g <$> l.
Proof.
  intros Hg. unfold update_where. rewrite <- list_fmap_compose.
  apply list_fmap_ext. intros _ r _. cbn. by case_bool_decide.
Qed.

Lemma elem_of_update_where_other {A} (key : A → Z) id f (l : list A) r :
  r ∈ l → key r ≠ id → r ∈ update_where key id f l.
Proof.
  intros Hr Hne. unfold update_where. apply list_elem_of_fmap.
  exists r. split; [|done]. by rewrite bool_decide_eq_false_2.
Qed.

(** X4.  A successful [update_user] (either implementation) changes
    nothing but the email and age of the rows with that id: the table
    keeps its ids, usernames and creation times in the same order, every
    row of another id is still there, and the AUTOINCREMENT high-water
    mark is what it was. *)
Theorem update_user_changes_one_row
    (w : world) (id : Z) (u : user_row) (rest : list user_row)
    (upd : FastapiApp.UserUpdate) (data : FlaskApp.payload) :
  users_where_id id (disk w) = u :: rest →
  FastapiApp.UserUpdate_dict upd ≠ [] →
  FastapiApp.upd_email upd ≠ Fastapi.Null →
  is_Some (data !! "email") ∨ is_Some (data !! "age") →
  data !! "email" ≠ Some PNone →
  Forall
    (λ d',
       u_id <$> users d' = u_id <$> users (disk w)
       ∧ u_username <$> users d' = u_username <$> users (disk w)
       ∧ u_created_at <$> users d' = u_created_at <$> users (disk w)
       ∧ users_seq d' = users_seq (disk w)
       ∧ ∀ r, r ∈ users (disk w) → u_id r ≠ id → r ∈ users d')
    [disk (snd (FastapiApp.update_user id upd w));
     disk (snd (FlaskApp.update_user id data w))].
Proof.
  intros Hex Hne Hmail Hsome Hjson.
  rewrite (fastapi_update_user_run id upd w u rest Hne Hmail Hex).
  destruct (flask_update_user_run id data w u rest Hsome Hjson Hex) as [sets ->].
  cbn [snd closed_after disk].
  repeat constructor; cbn [users users_seq with_users];
    try (by apply fmap_update_where);
    intros r Hr Hid; by apply elem_of_update_where_other.
Qed.

Lemma update_user_changes_one_row_witness :
  u_username <$> users (disk (snd (FastapiApp.update_user 1 new_email_update with_bob)))
  = ["bob"].
Proof.
  pose proof (update_user_changes_one_row with_bob 1 bob_row []
                new_email_update new_email) as H.
  apply Forall_cons_1 in H as [(_ & Hnames & _) _].
  - exact Hnames.
  - reflexivity.
  - discriminate.
  - discriminate.
  - left. by eexists.
  - discriminate.
Defined.

(** X5.  [get_all_users] answers 200 with every row of the users table
    in table order, leaves the store as it was and closes its
    connection; called after a successful [create_user] it lists the
    rows that were there followed by the record just created. *)
Theorem get_all_users_lists_table (w : world) (user : FastapiApp.UserCreate) :
  fst (FlaskApp.get_all_users w) = Return (FlaskApp.Users (users (disk w)), 200)
  ∧ fst (FastapiApp.get_all_users w) = Return (users (disk w))
  ∧ unchanged_and_closed w (snd (FlaskApp.get_all_users w))
  ∧ unchanged_and_closed w (snd (FastapiApp.get_all_users w))
  ∧ ((FastapiApp.username user ∉ u_username <$> users (disk w)) →
     ∃ r, fst (FastapiApp.create_user user w) = Return r
          ∧ fst (FastapiApp.get_all_users (snd (FastapiApp.create_user user w)))
            = Return (users (disk w) ++ [r])).
Proof.
  rewrite flask_get_all_users_run, fastapi_get_all_users_run. cbn [fst snd].
  split_and!; try done; try apply closed_after_unchanged.
  intros Hfresh. rewrite fastapi_create_user_run. cbn zeta.
  rewrite bool_decide_eq_false_2 by done. cbn [fst snd].
  eexists. split; [reflexivity|].
  by rewrite fastapi_get_all_users_run.
Qed.

Lemma get_all_users_lists_table_witness :
  ∃ r, fst (FastapiApp.get_all_users (snd (FastapiApp.create_user carol with_bob)))
       = Return (users (disk with_bob) ++ [r])
       ∧ u_username r = "carol".
Proof.
  destruct (get_all_users_lists_table with_bob carol) as (_ & _ & _ & _ & Hlist).
  destruct Hlist as (r & Hr & Hall).
  { vm_compute. intros Hin. apply list_elem_of_singleton in Hin. discriminate. }
  exists r. split; [exact Hall|].
  assert (Hc : fst (FastapiApp.create_user carol with_bob)
               = Return {| u_id := 2; u_username := "carol";
                           u_email := "carol@example.com"; u_age := VInt 41;
                           u_created_at := t0 |}) by reflexivity.
  rewrite Hc in Hr. by injection Hr as <-.
Defined.

(** X6.  When ids are unique in the users table (the primary key),
    [get_user] on the id of any row of the table answers 200 with
    exactly that row, in both implementations, changes nothing and
    closes its connection. *)
Theorem get_user_returns_the_row (w : world) (r : user_row) :
  NoDup (u_id <$> users (disk w)) →
  r ∈ users (disk w) →
  fst (FlaskApp.get_user (u_id r) w) = Return (FlaskApp.UserBody r, 200)
  ∧ fst (FastapiApp.get_user (u_id r) w) = Return r
  ∧ unchanged_and_closed w (snd (FlaskApp.get_user (u_id r) w))
  ∧ unchanged_and_closed w (snd (FastapiApp.get_user (u_id r) w)).
Proof.
  intros Hnd Hr. rewrite flask_get_user_run, fastapi_get_user_run.
  unfold users_where_id. rewrite (where_unique u_id _ r Hnd Hr). cbn [fst snd head].
  split_and!; try done; apply closed_after_unchanged.
Qed.

Lemma get_user_returns_the_row_witness :
  fst (FastapiApp.get_user 1 with_bob) = Return bob_row.
Proof.
  destruct (get_user_returns_the_row with_bob bob_row) as (_ & Hget & _).
  - apply NoDup_singleton.
  - apply list_elem_of_here.
  - exact Hget.
Defined.

End UserRoundTrips.

(** * What the handlers of the quotes service compute, as equations. *)
Module QuoteRuns.
Import Sqlite Runtime Sessions Samples History Observations SqliteFacts SessionFacts
  CreateUser UpdateUser QuotesApi QuotesFacts AddFavorite BatchCreate Constraints UserRoundTrips.

Lemma create_quote_run quote w :
  create_quote quote w
  = let r := new_quote quote (now w) (disk w) in
    (Return (plain r),
     closed_after w (add_quote r (disk w))
       [Execute (next_handle w)
          (INSERT_INTO_quotes (text quote) (author quote) (source quote) (category quote));
        Commit (next_handle w);
        Execute (next_handle w) (SELECT_star_FROM_quotes_WHERE_id (q_id r));
        Close (next_handle w)]).
Proof.
  unfold create_quote, get_db_connection. run. unfold insert_quote. run.
  pose proof (quotes_where_added quote (now w) (disk w)) as Hsel.
  unfold add_quote, new_quote in Hsel. cbn [q_id] in Hsel. rewrite Hsel.
  run. finish.
Qed.

Lemma truthy_some u : u ≠ "" → truthy (Some u) = Some u.
Proof. intros Hu. unfold truthy. by rewrite bool_decide_eq_false_2. Qed.

Lemma get_quote_user_run id u w :
  u ≠ "" →
  get_quote id (Some u) w
  = match head (quotes_where_id id (disk w)) with
    | Some q =>
      (Return {| fields := q;
                 is_favorite := bool_decide (favorites_where id u (disk w) ≠ []) |},
       closed_after w (disk w)
         [Execute (next_handle w) (SELECT_star_FROM_quotes_WHERE_id id);
          Execute (next_handle w)
            (SELECT_1_FROM_favorites_WHERE_quote_id_AND_user_id id u);
          Close (next_handle w)])
    | None =>
      (Raise (HTTPException 404 "Quote not found"),
       closed_after w (disk w)
         [Execute (next_handle w) (SELECT_star_FROM_quotes_WHERE_id id);
          Close (next_handle w)])
    end.
Proof.
  intros Hu.
  unfold get_quote, get_db_connection, check_favorite, reraise_or_500. run.
  destruct (quotes_where_id id (disk w)) as [|q rest]; run; [finish|].
  rewrite truthy_some by done. run.
  destruct (favorites_where id u (disk w)) as [|f fs]; run.
  - rewrite bool_decide_eq_false_2, (bool_decide_eq_false_2 ([] ≠ [])) by (by intros ?).
    finish.
  - rewrite !bool_decide_eq_true_2 by done. finish.
Qed.



Lemma update_quote_rows_ok sets id qs f :
  (∀ q, set_quote_columns sets q = inr (f q)) →
  update_quote_rows sets id qs
  = inr (count (filter (λ q, q_id q = id) qs), update_where q_id id f qs).
Proof.
  intros Hf. induction qs as [|q qs IH]; [done|].
  cbn [update_quote_rows]. rewrite IH. unfold update_where. cbn [fmap list_fmap].
  case_bool_decide.
  - rewrite Hf, filter_cons_True, count_cons by done. reflexivity.
  - rewrite filter_cons_False by done. reflexivity.
Qed.

Lemma update_quotes_ok sets id d f :
  sets ≠ [] →
  (∀ q, set_quote_columns sets q = inr (f q)) →
  update_quotes sets id d
  = Changed (count (quotes_where_id id d))
      (with_quotes (update_where q_id id f (quotes d)) (quotes_seq d) d).
Proof.
  intros Hnil Hf. unfold update_quotes.
  rewrite (update_quote_rows_ok sets id (quotes d) f Hf).
  by destruct sets.
Qed.

Lemma set_quote_columns_assign upd q :
  upd_text upd ≠ Fastapi.Null →
  upd_author upd ≠ Fastapi.Null →
  set_quote_columns ((λ '(field, value), (field, adapt value)) <$> QuoteUpdate_dict upd) q
  = inr (assign_quote upd q).
Proof.
  intros Ht Ha.
  destruct upd as [[| |t] [| |a] [| |s] [| |c]]; try done; destruct q; reflexivity.
Qed.

Lemma quotes_where_updated id f d q rest :
  (∀ r, q_id (f r) = q_id r) →
  quotes_where_id id d = q :: rest →
  quotes_where_id id (with_quotes (update_where q_id id f (quotes d)) (quotes_seq d) d)
  = f q :: (f <$> rest).
Proof.
  intros Hkey Hex. unfold quotes_where_id in *. cbn [quotes with_quotes].
  rewrite where_updated by done. by rewrite Hex.
Qed.

Lemma update_quote_run id upd user_id w q rest :
  QuoteUpdate_dict upd ≠ [] →
  upd_text upd ≠ Fastapi.Null →
  upd_author upd ≠ Fastapi.Null →
  quotes_where_id id (disk w) = q :: rest →
  ∃ evs,
    update_quote id upd user_id w
    = (Return {| fields := assign_quote upd q;
                 is_favorite :=
                   match truthy user_id with
                   | Some u => bool_decide (favorites_where id u (disk w) ≠ [])
                   | None => false
                   end |},
       closed_after w (updated_quotes id upd (disk w)) evs).
Proof.
  intros Hne Ht Ha Hex.
  set (sets := (λ '(field, value), (field, adapt value)) <$> QuoteUpdate_dict upd).
  assert (Hnil : sets ≠ []) by (subst sets; by destruct (QuoteUpdate_dict upd)).
  pose proof (update_quotes_ok sets id (disk w) (assign_quote upd) Hnil
                (λ r, set_quote_columns_assign upd r Ht Ha)) as Hupd.
  pose proof (quotes_where_updated id (assign_quote upd) (disk w) q rest
                (λ _, eq_refl) Hex) as Hsel.
  unfold update_quote, get_db_connection, check_favorite, reraise_or_500.
  rewrite bool_decide_eq_false_2 by done.
  run. rewrite Hex. run. fold sets. rewrite Hupd. run. rewrite Hsel. run.
  destruct (truthy user_id) as [u|]; run.
  - change (favorites_where id u (with_quotes _ _ (disk w)))
      with (favorites_where id u (disk w)).
    destruct (favorites_where id u (disk w)) as [|f fs]; run.
    + rewrite bool_decide_eq_false_2, (bool_decide_eq_false_2 ([] ≠ []))
        by (by intros ?).
      eexists. finish.
    + rewrite !bool_decide_eq_true_2 by done. eexists. finish.
  - eexists. finish.
Qed.

Lemma update_quote_missing id upd user_id w :
  QuoteUpdate_dict upd ≠ [] →
  quotes_where_id id (disk w) = [] →
  update_quote id upd user_id w
  = (Raise (HTTPException 404 "Quote not found"),
     closed_after w (disk w)
       [Execute (next_handle w) (SELECT_1_FROM_quotes_WHERE_id id);
        Close (next_handle w)]).
Proof.
  intros Hne Hex. unfold update_quote, get_db_connection, reraise_or_500.
  rewrite bool_decide_eq_false_2 by done.
  run. rewrite Hex. run. finish.
Qed.

End QuoteRuns.

(** * Creating a quote and reading it back. *)
Module QuoteCreation.
Import Sqlite Runtime Sessions Samples History Observations SqliteFacts SessionFacts
  CreateUser UpdateUser QuotesApi QuotesFacts AddFavorite BatchCreate Constraints UserRoundTrips QuoteRuns.

Lemma favorites_where_nonempty i u d :
  favorites_where i u d ≠ []
  ↔ ∃ f, f ∈ favorites d ∧ f_quote_id f = i ∧ f_user_id f = u.
Proof.
  unfold favorites_where. split.
  - intros Hne. destruct (filter _ (favorites d)) as [|f fs] eqn:Hfs; [done|].
    assert (Hf : f ∈ filter (λ f, f_quote_id f = i ∧ f_user_id f = u) (favorites d))
      by (rewrite Hfs; left).
    apply list_elem_of_filter in Hf as [[Hq Hu] Hf]. eauto.
  - intros (f & Hf & Hq & Hu) Hnil.
    eapply (filter_nil_not_elem_of _ _ f Hnil); [|done]. done.
Qed.

Lemma head_where_id id d q :
  head (quotes_where_id id d) = Some q → q ∈ quotes d ∧ q_id q = id.
Proof.
  intros Hq%head_Some_elem_of. unfold quotes_where_id in Hq.
  by apply list_elem_of_filter in Hq as [? ?].
Qed.

(** X9.  [create_quote] always succeeds in the model's store: it
    returns a record with the text, author, source and category that
    were sent, an id that no quote has and that is above every id issued
    before, and [is_favorite] false; [get_quote] on that id returns the
    same record, [get_all_quotes] lists it after the quotes that were
    there, the favorites table is untouched and the connection is
    closed. *)
Theorem create_quote_then_get_quote (w : world) (quote : QuoteCreate) :
  let created := create_quote quote w in
  ∃ r,
    fst created = Return (plain r)
    ∧ row_content r = payload_content quote
    ∧ (q_id r ∉ q_id <$> quotes (disk w))
    ∧ quotes_seq (disk w) < q_id r
    ∧ fst (get_quote (q_id r) None (snd created)) = Return (plain r)
    ∧ fst (get_all_quotes None (snd created))
      = Return (plain <$> quotes (disk w) ++ [r])
    ∧ favorites (disk (snd created)) = favorites (disk w)
    ∧ (next_handle w ∉ open_handles (snd created)).
Proof.
  intros created. subst created. rewrite create_quote_run. cbn zeta. cbn [fst snd].
  exists (new_quote quote (now w) (disk w)). split_and!; try done.
  - apply next_rowid_fresh.
  - apply next_rowid_above_seq.
  - rewrite get_quote_none_run. cbn [fst closed_after disk].
    by rewrite quotes_where_added.
  - by rewrite get_all_quotes_none_run.
  - apply closed_after_handle.
Qed.

(** X10.  When every favorites row references a quote id that was
    issued (also one left behind by a deleted quote), a newly created
    quote is no user's favourite: [get_quote] with any non-empty
    [user_id] returns it with [is_favorite] false and
    [get_favorite_quotes] does not list it. *)
Theorem new_quote_is_nobodys_favorite
    (w : world) (quote : QuoteCreate) (u : string) :
  refs_bounded (disk w) →
  u ≠ "" →
  let created := create_quote quote w in
  ∃ r,
    fst created = Return (plain r)
    ∧ fst (get_quote (q_id r) (Some u) (snd created)) = Return (plain r)
    ∧ Forall (λ x, q_id (fields x) ≠ q_id r)
             (returned (fst (get_favorite_quotes u (snd created)))).
Proof.
  intros Hrefs Hu created. subst created. rewrite create_quote_run. cbn zeta.
  cbn [fst snd]. set (r := new_quote quote (now w) (disk w)).
  assert (Hnone : ∀ u', favorites_where (q_id r) u' (add_quote r (disk w)) = []).
  { intros u'. apply dec_stable. intros Hne.
    apply favorites_where_nonempty in Hne as (f & Hf & Hq & _).
    apply Hrefs in Hf. rewrite Hq in Hf. subst r. cbn [new_quote q_id] in Hf.
    pose proof (next_rowid_above_seq (quotes_seq (disk w)) (q_id <$> quotes (disk w))).
    lia. }
  exists r. split_and!; [done| |].
  - rewrite get_quote_user_run by done. cbn [closed_after disk].
    subst r. rewrite quotes_where_added. cbn [head fst]. unfold plain. do 2 f_equal.
    apply bool_decide_eq_false_2. intros Hne. by apply Hne, Hnone.
  - rewrite get_favorite_quotes_run. cbn [fst returned closed_after disk].
    apply Forall_fmap, Forall_forall. intros q Hq. cbn [fields].
    unfold favorite_quotes in Hq. apply list_elem_of_bind in Hq as (q' & Hin & Hq').
    apply list_elem_of_bind in Hin as (f & Hin & Hf).
    apply list_elem_of_singleton in Hin as ->.
    intros Heq. apply list_elem_of_filter in Hf as [[Hfq Hfu] Hf].
    assert (Hin : f ∈ favorites_where (q_id r) u (add_quote r (disk w))).
    { unfold favorites_where. apply list_elem_of_filter. by rewrite <- Heq. }
    rewrite Hnone in Hin. by apply elem_of_nil in Hin.
Qed.

Lemma new_quote_is_nobodys_favorite_witness :
  ∃ r, fst (create_quote seneca with_orphan) = Return (plain r)
       ∧ fst (get_quote (q_id r) (Some "user123")
                (snd (create_quote seneca with_orphan)))
         = Return (plain r)
       ∧ favorites (disk with_orphan) ≠ [].
Proof.
  destruct (new_quote_is_nobodys_favorite with_orphan seneca "user123")
    as (r & Hcreated & Hget & _).
  - intros f Hf. vm_compute in Hf. apply list_elem_of_singleton in Hf as ->.
    vm_compute. discriminate.
  - discriminate.
  - exists r. split_and!; [exact Hcreated|exact Hget|]. vm_compute. discriminate.
Defined.

End QuoteCreation.

(** * The favourite flag and the favorites table. *)
Module Favorites.
Import Sqlite Runtime Sessions Samples History Observations SqliteFacts SessionFacts
  CreateUser UpdateUser QuotesApi QuotesFacts AddFavorite BatchCreate Constraints UserRoundTrips QuoteRuns QuoteCreation.



Lemma favorites_where_added id u t d :
  favorites_where id u d = [] →
  favorites_where id u (add_favorite_row (new_favorite id u t d) d)
  = [new_favorite id u t d].
Proof.
  intros Hnone. unfold favorites_where in *.
  cbn [favorites add_favorite_row with_favorites].
  by rewrite filter_app, Hnone, filter_cons_True, filter_nil.
Qed.

Lemma favorites_where_removed id u d :
  favorites_where id u (without_favorite id u d) = [].
Proof.
  unfold favorites_where, without_favorite. cbn [favorites with_favorites].
  apply filter_none. intros f Hf Hpair.
  by apply list_elem_of_filter in Hf as [Hne _].
Qed.

(** After [add_favorite] on an existing quote the pair has a row. *)
Lemma add_favorite_adds id u w q rest :
  quotes_where_id id (disk w) = q :: rest →
  fst (add_favorite id {| user_id := u |} w) = Return true
  ∧ quotes (disk (snd (add_favorite id {| user_id := u |} w))) = quotes (disk w)
  ∧ favorites_where id u (disk (snd (add_favorite id {| user_id := u |} w))) ≠ [].
Proof.
  intros Hex. rewrite add_favorite_run, Hex. cbn [user_id].
  case_bool_decide as Hfav; cbn [fst snd closed_after disk].
  - done.
  - split_and!; [done|done|]. by rewrite favorites_where_added.
Qed.

Lemma quote_in_favorite_quotes u d q :
  q ∈ quotes d → favorites_where (q_id q) u d ≠ [] → q ∈ favorite_quotes u d.
Proof.
  intros Hq Hfav. unfold favorite_quotes. apply list_elem_of_bind.
  exists q. split; [|done].
  unfold favorites_where in Hfav.
  destruct (filter _ (favorites d)) as [|f fs] eqn:Hfs; [done|].
  apply list_elem_of_bind. exists f. split; [apply list_elem_of_here|left].
Qed.

Lemma favorite_quotes_spec u d q :
  q ∈ favorite_quotes u d ↔ q ∈ quotes d ∧ favorites_where (q_id q) u d ≠ [].
Proof.
  split.
  - intros Hq. split; [by eapply favorite_quotes_in_quotes|].
    unfold favorite_quotes in Hq. apply list_elem_of_bind in Hq as (q' & Hin & Hq').
    apply list_elem_of_bind in Hin as (f & Hin & Hf).
    apply list_elem_of_singleton in Hin as ->.
    unfold favorites_where. intros Hnil. rewrite Hnil in Hf.
    by apply elem_of_nil in Hf.
  - intros [? ?]. by apply quote_in_favorite_quotes.
Qed.

(** X12.  On an existing quote and a non-empty [user_id]:
    after [add_favorite], [get_quote] shows the quote with
    [is_favorite] true and [get_favorite_quotes] lists it;
    [remove_favorite] then reports true, after which [get_quote] shows
    [is_favorite] false, [get_favorite_quotes] no longer lists the
    quote, and a second [remove_favorite] reports false. *)
Theorem favorite_round_trip
    (w : world) (id : Z) (u : string) (q : quote_row) (rest : list quote_row) :
  u ≠ "" →
  quotes_where_id id (disk w) = q :: rest →
  let added := snd (add_favorite id {| user_id := u |} w) in
  let removed := snd (remove_favorite id u added) in
  fst (get_quote id (Some u) added) = Return {| fields := q; is_favorite := true |}
  ∧ {| fields := q; is_favorite := true |}
      ∈ returned (fst (get_favorite_quotes u added))
  ∧ fst (remove_favorite id u added) = Return true
  ∧ fst (get_quote id (Some u) removed) = Return (plain q)
  ∧ Forall (λ x, q_id (fields x) ≠ id) (returned (fst (get_favorite_quotes u removed)))
  ∧ fst (remove_favorite id u removed) = Return false.
Proof.
  intros Hu Hex added removed.
  destruct (add_favorite_adds id u w q rest Hex) as (_ & Hquotes & Hfav).
  fold added in Hquotes, Hfav.
  assert (Hex' : quotes_where_id id (disk added) = q :: rest)
    by (unfold quotes_where_id in *; by rewrite Hquotes).
  assert (Hq : q ∈ quotes (disk added) ∧ q_id q = id).
  { apply head_where_id. by rewrite Hex'. }
  destruct Hq as [Hq Hid].
  subst removed. rewrite !remove_favorite_run. cbn [fst snd closed_after disk].
  rewrite !get_quote_user_run by done. rewrite !get_favorite_quotes_run.
  cbn [fst snd closed_after disk returned].
  change (quotes_where_id id (without_favorite id u (disk added)))
    with (quotes_where_id id (disk added)).
  rewrite Hex', favorites_where_removed. cbn [head fst].
  split_and!.
  - by rewrite bool_decide_eq_true_2.
  - apply (list_elem_of_fmap_2 (λ quote, {| fields := quote; is_favorite := true |})).
    apply quote_in_favorite_quotes; [done|by rewrite Hid].
  - f_equal. apply bool_decide_eq_true_2. unfold count.
    destruct (favorites_where id u (disk added)); cbn [length]; try done; lia.
  - reflexivity.
  - apply Forall_fmap, Forall_forall. intros x Hx Hxid. cbn [fields] in Hxid.
    apply favorite_quotes_spec in Hx as [_ Hx]. apply Hx.
    rewrite Hxid. apply favorites_where_removed.
  - reflexivity.
Qed.

Lemma favorite_round_trip_witness :
  fst (remove_favorite 1 "user123" (snd (add_favorite 1 user123 with_quote)))
  = Return true
  ∧ fst (get_quote 1 (Some "user123") (snd (add_favorite 1 user123 with_quote)))
    = Return {| fields := lao_tzu_row; is_favorite := true |}.
Proof.
  destruct (favorite_round_trip with_quote 1 "user123" lao_tzu_row [])
    as (Hget & _ & Hremoved & _).
  - discriminate.
  - reflexivity.
  - split; [exact Hremoved|exact Hget].
Defined.

(** X14.  The empty string is accepted as a [user_id] by
    [add_favorite] and [get_favorite_quotes] but read as no user by
    [get_quote] and [get_all_quotes]: after a successful
    [add_favorite] with user_id the empty string, [get_favorite_quotes]
    of the empty string lists the quote as a favourite, while
    [get_quote] and [get_all_quotes] with that user_id return it with
    [is_favorite] false. *)
Theorem empty_user_id_is_no_user
    (w : world) (id : Z) (q : quote_row) (rest : list quote_row) :
  quotes_where_id id (disk w) = q :: rest →
  let added := snd (add_favorite id {| user_id := "" |} w) in
  fst (add_favorite id {| user_id := "" |} w) = Return true
  ∧ {| fields := q; is_favorite := true |}
      ∈ returned (fst (get_favorite_quotes "" added))
  ∧ fst (get_quote id (Some "") added) = Return (plain q)
  ∧ fst (get_all_quotes (Some "") added) = Return (plain <$> quotes (disk w)).
Proof.
  intros Hex added.
  destruct (add_favorite_adds id "" w q rest Hex) as (Hret & Hquotes & Hfav).
  fold added in Hquotes, Hfav.
  assert (Hex' : quotes_where_id id (disk added) = q :: rest)
    by (unfold quotes_where_id in *; by rewrite Hquotes).
  assert (Hq : q ∈ quotes (disk added) ∧ q_id q = id).
  { apply head_where_id. by rewrite Hex'. }
  destruct Hq as [Hq Hid].
  split_and!.
  - done.
  - rewrite get_favorite_quotes_run. cbn [fst returned].
    apply (list_elem_of_fmap_2 (λ quote, {| fields := quote; is_favorite := true |})).
    apply quote_in_favorite_quotes; [done|by rewrite Hid].
  - change (get_quote id (Some "") added) with (get_quote id None added).
    rewrite get_quote_none_run, Hex'. done.
  - change (get_all_quotes (Some "") added) with (get_all_quotes None added).
    rewrite get_all_quotes_none_run. cbn [fst]. by rewrite Hquotes.
Qed.

Lemma empty_user_id_is_no_user_witness :
  fst (get_quote 1 (Some "") (snd (add_favorite 1 {| user_id := "" |} with_quote)))
  = Return (plain lao_tzu_row)
  ∧ returned (fst (get_favorite_quotes ""
                     (snd (add_favorite 1 {| user_id := "" |} with_quote))))
    = [{| fields := lao_tzu_row; is_favorite := true |}].
Proof.
  destruct (empty_user_id_is_no_user with_quote 1 lao_tzu_row [])
    as (_ & _ & Hget & _); [reflexivity|].
  split; [exact Hget|reflexivity].
Defined.

End Favorites.

(** * Listing favourites; deleting a quote. *)
Module QuoteListing.
Import Sqlite Runtime Sessions Samples History Observations SqliteFacts SessionFacts
  CreateUser UpdateUser QuotesApi QuotesFacts AddFavorite BatchCreate Constraints UserRoundTrips QuoteRuns QuoteCreation Favorites.

Lemma join_NoDup u (qs : list quote_row) (fs : list favorite_row) :
  NoDup (q_id <$> qs) → NoDup (favorite_key <$> fs) →
  NoDup (q ← qs;
         f ← filter (λ f, f_quote_id f = q_id q ∧ f_user_id f = u) fs;
         [q]).
Proof.
  intros Hids Hfav. induction qs as [|q qs IH]; [constructor|].
  rewrite fmap_cons, NoDup_cons in Hids. destruct Hids as [Hq Hids].
  rewrite bind_cons. apply NoDup_app. split_and!.
  - pose proof (unique_where (q_id q) u fs Hfav) as Hle.
    destruct (filter (λ f, f_quote_id f = q_id q ∧ f_user_id f = u) fs)
      as [|f [|f' l]]; cbn in *; try lia.
    + constructor.
    + apply NoDup_singleton.
  - intros x Hx Hx'.
    apply list_elem_of_bind in Hx as (f & Hx & _).
    apply list_elem_of_singleton in Hx as ->.
    apply list_elem_of_bind in Hx' as (q' & Hx' & Hq').
    apply list_elem_of_bind in Hx' as (f' & Hx' & _).
    apply list_elem_of_singleton in Hx' as ->.
    apply Hq. by apply list_elem_of_fmap_2.
  - by apply IH.
Qed.

Lemma favorite_quotes_NoDup u d :
  NoDup (q_id <$> quotes d) → unique_favorites d → NoDup (favorite_quotes u d).
Proof. intros Hids Hfav. by apply join_NoDup. Qed.

Lemma fields_flag b (l : list quote_row) :
  fields <$> ((λ quote, {| fields := quote; is_favorite := b |}) <$> l) = l.
Proof. induction l as [|q l IH]; [done|]. cbn. by rewrite IH. Qed.

(** X13.  [get_favorite_quotes] returns, each with [is_favorite] true,
    exactly the quotes of the quotes table that have a favorites row for
    that user: a favorites row whose quote is gone contributes nothing.
    When the store satisfies the schema's uniqueness constraints no
    quote is listed twice.  The store is left as it was and the
    connection is closed. *)
Theorem get_favorite_quotes_lists_favorites (w : world) (u : string) :
  ∃ l,
    fst (get_favorite_quotes u w) = Return l
    ∧ Forall (λ x, is_favorite x = true) l
    ∧ (∀ q, q ∈ fields <$> l
            ↔ q ∈ quotes (disk w)
              ∧ ∃ f, f ∈ favorites (disk w) ∧ f_quote_id f = q_id q ∧ f_user_id f = u)
    ∧ (db_ok (disk w) → NoDup l)
    ∧ unchanged_and_closed w (snd (get_favorite_quotes u w)).
Proof.
  rewrite get_favorite_quotes_run. cbn [fst snd]. eexists. split; [reflexivity|].
  split_and!.
  - apply Forall_fmap, Forall_true. done.
  - intros q.
    by rewrite fields_flag, favorite_quotes_spec, favorites_where_nonempty.
  - intros []. apply NoDup_fmap_2; [|by apply favorite_quotes_NoDup].
    by intros x y [= ->].
  - apply closed_after_unchanged.
Qed.

Lemma get_favorite_quotes_lists_favorites_witness :
  NoDup (returned (fst (get_favorite_quotes "user123" with_favorite)))
  ∧ returned (fst (get_favorite_quotes "user123" with_orphan)) = [].
Proof.
  split; [|reflexivity].
  destruct (get_favorite_quotes_lists_favorites with_favorite "user123")
    as (l & Hl & _ & _ & Hnd & _).
  rewrite Hl. apply Hnd.
  split; vm_compute;
    try apply NoDup_nil_2; try apply NoDup_singleton;
    intros i Hi; try (by apply elem_of_nil in Hi);
    apply list_elem_of_singleton in Hi as ->; done.
Defined.




End QuoteListing.

(** * Updating quotes; batches; favourites of deleted quotes. *)
Module QuoteUpdates.
Import Sqlite Runtime Sessions Samples History Observations SqliteFacts SessionFacts
  CreateUser UpdateUser QuotesApi QuotesFacts AddFavorite BatchCreate Constraints UserRoundTrips QuoteRuns QuoteCreation Favorites QuoteListing.

Lemma get_quote_result id user_id w :
  fst (get_quote id user_id w)
  = match head (quotes_where_id id (disk w)) with
    | Some q => Return {| fields := q; is_favorite := favorite_flag user_id id (disk w) |}
    | None => Raise (HTTPException 404 "Quote not found")
    end.
Proof.
  unfold get_quote, get_db_connection, check_favorite, reraise_or_500, favorite_flag.
  run.
  destruct (quotes_where_id id (disk w)) as [|q rest]; run; [done|].
  destruct (truthy user_id) as [u|]; run; [|done].
  destruct (favorites_where id u (disk w)) as [|f fs]; run; done.
Qed.

(** X16.  A successful [update_quote] (some field supplied, text and
    author not null, the quote exists) returns the stored row with the
    supplied fields rewritten (a null source or category cleared) and
    the others kept, flagged for [user_id] as [get_quote] flags it; a
    [get_quote] afterwards returns the same record; ids and creation
    times of the table, every quote of another id and the favorites
    table are unchanged, and the connection is closed. *)
Theorem update_quote_returns_updated_row
    (w : world) (id : Z) (upd : QuoteUpdate) (user_id : option string)
    (q : quote_row) (rest : list quote_row) :
  QuoteUpdate_dict upd ≠ [] →
  upd_text upd ≠ Fastapi.Null →
  upd_author upd ≠ Fastapi.Null →
  quotes_where_id id (disk w) = q :: rest →
  let r := update_quote id upd user_id w in
  let x := {| fields := assign_quote upd q;
              is_favorite := favorite_flag user_id id (disk w) |} in
  fst r = Return x
  ∧ fst (get_quote id user_id (snd r)) = Return x
  ∧ q_id <$> quotes (disk (snd r)) = q_id <$> quotes (disk w)
  ∧ q_created_at <$> quotes (disk (snd r)) = q_created_at <$> quotes (disk w)
  ∧ (∀ q', q' ∈ quotes (disk w) → q_id q' ≠ id → q' ∈ quotes (disk (snd r)))
  ∧ favorites (disk (snd r)) = favorites (disk w)
  ∧ (next_handle w ∉ open_handles (snd r)).
Proof.
  intros Hne Ht Ha Hex r x. subst r x.
  destruct (update_quote_run id upd user_id w q rest Hne Ht Ha Hex) as [evs ->].
  cbn [fst snd]. split_and!.
  - done.
  - rewrite get_quote_result. cbn [closed_after disk]. unfold updated_quotes.
    rewrite (quotes_where_updated id _ (disk w) q rest) by done. done.
  - by apply fmap_update_where.
  - by apply fmap_update_where.
  - intros q' Hq' Hid. by apply elem_of_update_where_other.
  - done.
  - apply closed_after_handle.
Qed.

Lemma update_quote_returns_updated_row_witness :
  fst (update_quote 1 new_category (Some "user123") with_favorite)
  = Return {| fields := assign_quote new_category lao_tzu_row; is_favorite := true |}
  ∧ q_category (assign_quote new_category lao_tzu_row) = Some "Travel"
  ∧ q_source (assign_quote new_category lao_tzu_row) = Some "Tao Te Ching".
Proof.
  destruct (update_quote_returns_updated_row with_favorite 1 new_category
              (Some "user123") lao_tzu_row []) as (Hupdated & _);
    [discriminate..|reflexivity|].
  split_and!; [|reflexivity..].
  etrans; [exact Hupdated|]. reflexivity.
Defined.

Lemma update_quote_rows_fail sets id qs e :
  (∀ q, set_quote_columns sets q = inl e) →
  filter (λ q, q_id q = id) qs ≠ [] →
  update_quote_rows sets id qs = inl e.
Proof.
  intros Hf. induction qs as [|q qs IH]; [done|].
  cbn [update_quote_rows]. case_bool_decide.
  - by rewrite Hf.
  - rewrite filter_cons_False by done. intros Hne. by rewrite IH.
Qed.

Lemma set_quote_columns_null upd :
  upd_text upd = Fastapi.Null ∨ upd_author upd = Fastapi.Null →
  ∃ msg, ∀ q,
    set_quote_columns
      ((λ '(field, value), (field, adapt value)) <$> QuoteUpdate_dict upd) q
    = inl (ConstraintFailed msg).
Proof.
  intros Hnull.
  destruct upd as [[| |t] [| |a] [| |s] [| |c]]; cbn in Hnull;
    destruct Hnull as [Hnull|Hnull]; try done; eexists; intros q; reflexivity.
Qed.

(** X17.  [update_quote] with text or author explicitly null on an
    existing quote answers 500 (the NOT NULL constraint fails inside the
    try block), whatever else the payload holds; the store is unchanged
    and still returns the quote as it was, but the connection the
    handler opened is left open. *)
Theorem update_quote_rejects_null
    (w : world) (id : Z) (upd : QuoteUpdate) (user_id : option string)
    (q : quote_row) (rest : list quote_row) :
  quotes_where_id id (disk w) = q :: rest →
  upd_text upd = Fastapi.Null ∨ upd_author upd = Fastapi.Null →
  let r := update_quote id upd user_id w in
  (∃ msg, fst r = Raise (HTTPException 500 msg))
  ∧ disk (snd r) = disk w
  ∧ fst (get_quote id None (snd r)) = Return (plain q)
  ∧ next_handle w ∈ open_handles (snd r).
Proof.
  intros Hex Hnull r. subst r.
  destruct (set_quote_columns_null upd Hnull) as [msg Hsets].
  assert (Hne : QuoteUpdate_dict upd ≠ []).
  { destruct upd as [[] [] [] []]; cbn in *; try done; by destruct Hnull. }
  set (sets := (λ '(field, value), (field, adapt value)) <$> QuoteUpdate_dict upd) in *.
  assert (Hupd : update_quotes sets id (disk w) = Failed (ConstraintFailed msg)).
  { unfold update_quotes.
    rewrite (update_quote_rows_fail sets id (quotes (disk w)) _ Hsets).
    - destruct sets eqn:Hs; [|done]. subst sets.
      by destruct (QuoteUpdate_dict upd).
    - unfold quotes_where_id in Hex. by rewrite Hex. }
  unfold update_quote, get_db_connection, check_favorite, reraise_or_500.
  rewrite bool_decide_eq_false_2 by done.
  run. rewrite Hex. run. fold sets. rewrite Hupd. run.
  split_and!.
  - by eexists.
  - done.
  - rewrite get_quote_result. cbn [disk]. by rewrite Hex.
  - unfold open_handles. cbn [snd conns]. apply elem_of_dom.
    rewrite lookup_insert_eq. by eexists.
Qed.

Lemma update_quote_rejects_null_witness :
  (∃ msg, fst (update_quote 1 null_text_update None with_quote)
          = Raise (HTTPException 500 msg))
  ∧ next_handle with_quote
    ∈ open_handles (snd (update_quote 1 null_text_update None with_quote)).
Proof.
  destruct (update_quote_rejects_null with_quote 1 null_text_update None lao_tzu_row [])
    as (Hfailed & _ & _ & Hopen).
  - reflexivity.
  - by left.
  - split; [exact Hfailed|exact Hopen].
Defined.

Lemma create_each_run quotes_in :
  ∀ w,
    fst (create_each quotes_in w) = plain <$> batch_rows (now w) quotes_in (disk w)
    ∧ disk (snd (create_each quotes_in w)) = batch_db (now w) quotes_in (disk w).
Proof.
  induction quotes_in as [|quote rest IH]; intros w; [done|].
  cbn [create_each]. rewrite create_quote_run. cbv zeta. cbn [fst snd one].
  destruct (IH (closed_after w (add_quote (new_quote quote (now w) (disk w)) (disk w))
                  [Execute (next_handle w)
                     (INSERT_INTO_quotes (text quote) (author quote)
                        (source quote) (category quote));
                   Commit (next_handle w);
                   Execute (next_handle w)
                     (SELECT_star_FROM_quotes_WHERE_id
                        (q_id (new_quote quote (now w) (disk w))));
                   Close (next_handle w)])) as [Hl Hd].
  rewrite Hl, Hd. done.
Qed.

(** X18.  [create_quotes_batch] returns the records, in order, that
    one [create_quote] call per payload would have returned and leaves
    the store those calls would have left; on the empty list it returns
    the empty list. *)
Theorem batch_is_repeated_create (w : world) (quotes_in : list QuoteCreate) :
  fst (create_quotes_batch quotes_in w) = Return (fst (create_each quotes_in w))
  ∧ disk (snd (create_quotes_batch quotes_in w))
    = disk (snd (create_each quotes_in w)).
Proof.
  rewrite create_quotes_batch_run.
  destruct (create_each_run quotes_in w) as [-> ->]. done.
Qed.

(** X19.  [remove_favorite] does not check that the quote exists: on a
    favorites row whose quote is gone, [add_favorite] answers 404 and
    changes nothing, while [remove_favorite] reports true and removes
    the row. *)
Theorem remove_favorite_needs_no_quote (w : world) (id : Z) (u : string) :
  quotes_where_id id (disk w) = [] →
  favorites_where id u (disk w) ≠ [] →
  fst (add_favorite id {| user_id := u |} w)
  = Raise (HTTPException 404 "Quote not found")
  ∧ disk (snd (add_favorite id {| user_id := u |} w)) = disk w
  ∧ fst (remove_favorite id u w) = Return true
  ∧ favorites_where id u (disk (snd (remove_favorite id u w))) = [].
Proof.
  intros Hex Hfav. rewrite add_favorite_run, remove_favorite_run, Hex.
  cbn [fst snd closed_after disk]. split_and!; try done.
  - f_equal. apply bool_decide_eq_true_2. unfold count.
    destruct (favorites_where id u (disk w)); cbn [length]; try done; lia.
  - apply favorites_where_removed.
Qed.

Lemma remove_favorite_needs_no_quote_witness :
  fst (remove_favorite 1 "user123" with_orphan) = Return true
  ∧ favorites (disk (snd (remove_favorite 1 "user123" with_orphan))) = []
  ∧ favorites (disk with_orphan) ≠ [].
Proof.
  destruct (remove_favorite_needs_no_quote with_orphan 1 "user123")
    as (_ & _ & Hremoved & _).
  - reflexivity.
  - vm_compute. discriminate.
  - split_and!; [exact Hremoved|reflexivity|]. vm_compute. discriminate.
Defined.

End QuoteUpdates.

(** * Which connections a handler leaves open. *)
Module Handles.
Import Sqlite Runtime Sessions Samples History Observations SqliteFacts SessionFacts
  CreateUser UpdateUser QuotesApi QuotesFacts AddFavorite BatchCreate Constraints UserRoundTrips QuoteRuns QuoteCreation Favorites QuoteListing QuoteUpdates.

Lemma dom_delete_fresh (m : gmap nat connection) h :
  h ∉ dom m → dom (delete h m) = dom m.
Proof.
  intros Hh. rewrite dom_delete_L. apply difference_disjoint_L.
  by apply disjoint_singleton_r.
Qed.

Ltac leak_done :=
  cbn [fst snd from_except flask_from_except];
  decide_closed;
  unfold handles_after, open_handles in *; cbn [conns];
  first [ reflexivity
        | apply dom_insert_L
        | apply dom_delete_fresh; assumption ].

Ltac leak_step :=
  first
    [ match goal with
      | |- context [users_where_id ?i ?d] => destruct (users_where_id i d) eqn:?
      | |- context [quotes_where_id ?i ?d] => destruct (quotes_where_id i d) eqn:?
      | |- context [favorites_where ?i ?u ?d] => destruct (favorites_where i u d) eqn:?
      end
    | case_scrutinee ].

Ltac leak_cases :=
  repeat (leak_step; run; try leak_done).

Ltac leak_start :=
  intros;
  unfold FlaskApp.create_user, FlaskApp.get_user, FlaskApp.get_all_users,
    FlaskApp.update_user, FlaskApp.delete_user, FlaskApp.get_db_connection,
    FlaskApp.subscript,
    FastapiApp.create_user, FastapiApp.get_user, FastapiApp.get_all_users,
    FastapiApp.update_user, FastapiApp.delete_user, FastapiApp.get_db_connection,
    Fastapi.subscript,
    QuotesApi.create_quote, QuotesApi.get_all_quotes, QuotesApi.get_quote,
    QuotesApi.update_quote, QuotesApi.delete_quote, QuotesApi.add_favorite,
    QuotesApi.remove_favorite, QuotesApi.get_favorite_quotes,
    QuotesApi.get_db_connection, QuotesApi.reraise_or_500,
    QuotesApi.check_favorite;
  repeat match goal with
         | |- context [if ?b then _ else _] =>
           lazymatch b with
           | negb _ => destruct b
           | bool_decide _ => destruct b
           end; try leak_done
         end;
  run; try leak_done; leak_cases.

Section OneWorld.
Context (w : world) (Hfresh : next_handle w ∉ open_handles w).

Lemma flask_create_user_handles data :
  open_handles (snd (FlaskApp.create_user data w))
  = handles_after w (flask_from_except (fst (FlaskApp.create_user data w))).
Proof. leak_start. Qed.

Lemma flask_get_user_handles id :
  open_handles (snd (FlaskApp.get_user id w))
  = handles_after w (flask_from_except (fst (FlaskApp.get_user id w))).
Proof. leak_start. Qed.

Lemma flask_get_all_users_handles :
  open_handles (snd (FlaskApp.get_all_users w))
  = handles_after w (flask_from_except (fst (FlaskApp.get_all_users w))).
Proof. leak_start. Qed.

Lemma flask_update_user_handles id data :
  open_handles (snd (FlaskApp.update_user id data w))
  = handles_after w (flask_from_except (fst (FlaskApp.update_user id data w))).
Proof. leak_start. Qed.

Lemma flask_delete_user_handles id :
  open_handles (snd (FlaskApp.delete_user id w))
  = handles_after w (flask_from_except (fst (FlaskApp.delete_user id w))).
Proof. leak_start. Qed.

Lemma fastapi_create_user_handles user :
  open_handles (snd (FastapiApp.create_user user w))
  = handles_after w (from_except (fst (FastapiApp.create_user user w))).
Proof. leak_start. Qed.

Lemma fastapi_get_user_handles id :
  open_handles (snd (FastapiApp.get_user id w))
  = handles_after w (from_except (fst (FastapiApp.get_user id w))).
Proof. leak_start. Qed.

Lemma fastapi_get_all_users_handles :
  open_handles (snd (FastapiApp.get_all_users w))
  = handles_after w (from_except (fst (FastapiApp.get_all_users w))).
Proof. leak_start. Qed.

Lemma fastapi_update_user_handles id upd :
  open_handles (snd (FastapiApp.update_user id upd w))
  = handles_after w (from_except (fst (FastapiApp.update_user id upd w))).
Proof. leak_start. Qed.

Lemma fastapi_delete_user_handles id :
  open_handles (snd (FastapiApp.delete_user id w))
  = handles_after w (from_except (fst (FastapiApp.delete_user id w))).
Proof. leak_start. Qed.

Lemma create_quote_handles quote :
  open_handles (snd (QuotesApi.create_quote quote w))
  = handles_after w (from_except (fst (QuotesApi.create_quote quote w))).
Proof. leak_start. Qed.

Lemma create_quotes_batch_handles quotes_in :
  open_handles (snd (QuotesApi.create_quotes_batch quotes_in w))
  = handles_after w (from_except (fst (QuotesApi.create_quotes_batch quotes_in w))).
Proof.
  rewrite create_quotes_batch_run. cbn [fst snd from_except].
  unfold handles_after, open_handles, closed_after in *. cbn [conns].
  by apply dom_delete_fresh.
Qed.

Lemma get_all_quotes_handles user_id :
  open_handles (snd (QuotesApi.get_all_quotes user_id w))
  = handles_after w (from_except (fst (QuotesApi.get_all_quotes user_id w))).
Proof. leak_start. Qed.

Lemma get_quote_handles id user_id :
  open_handles (snd (QuotesApi.get_quote id user_id w))
  = handles_after w (from_except (fst (QuotesApi.get_quote id user_id w))).
Proof. leak_start. Qed.

Lemma update_quote_handles id upd user_id :
  open_handles (snd (QuotesApi.update_quote id upd user_id w))
  = handles_after w (from_except (fst (QuotesApi.update_quote id upd user_id w))).
Proof. leak_start. Qed.

Lemma delete_quote_handles id :
  open_handles (snd (QuotesApi.delete_quote id w))
  = handles_after w (from_except (fst (QuotesApi.delete_quote id w))).
Proof. leak_start. Qed.

Lemma add_favorite_handles id fav :
  open_handles (snd (QuotesApi.add_favorite id fav w))
  = handles_after w (from_except (fst (QuotesApi.add_favorite id fav w))).
Proof. leak_start. Qed.

Lemma remove_favorite_handles id user_id :
  open_handles (snd (QuotesApi.remove_favorite id user_id w))
  = handles_after w (from_except (fst (QuotesApi.remove_favorite id user_id w))).
Proof. leak_start. Qed.

Lemma get_favorite_quotes_handles user_id :
  open_handles (snd (QuotesApi.get_favorite_quotes user_id w))
  = handles_after w (from_except (fst (QuotesApi.get_favorite_quotes user_id w))).
Proof. leak_start. Qed.

End OneWorld.

(** X8.  On a world where the handle the next [connect] hands out is not
    already open, each handler of the two User services ([create_user],
    [get_user], [get_all_users], [update_user], [delete_user], Flask and
    FastAPI) leaves exactly the connections open that were open before,
    plus the one it opened itself if and only if it answered 409 or 500
    (the answers of its except clauses) or, in Flask, let an exception
    escape.  Every other answer (200, 201, 400, 404) comes with the
    connection closed. *)
Theorem user_handlers_close_unless_except (w : world) :
  (next_handle w ∉ open_handles w) →
  (∀ data, open_handles (snd (FlaskApp.create_user data w))
           = handles_after w (flask_from_except (fst (FlaskApp.create_user data w))))
  ∧ (∀ id, open_handles (snd (FlaskApp.get_user id w))
           = handles_after w (flask_from_except (fst (FlaskApp.get_user id w))))
  ∧ open_handles (snd (FlaskApp.get_all_users w))
    = handles_after w (flask_from_except (fst (FlaskApp.get_all_users w)))
  ∧ (∀ id data, open_handles (snd (FlaskApp.update_user id data w))
                = handles_after w
                    (flask_from_except (fst (FlaskApp.update_user id data w))))
  ∧ (∀ id, open_handles (snd (FlaskApp.delete_user id w))
           = handles_after w (flask_from_except (fst (FlaskApp.delete_user id w))))
  ∧ (∀ user, open_handles (snd (FastapiApp.create_user user w))
             = handles_after w (from_except (fst (FastapiApp.create_user user w))))
  ∧ (∀ id, open_handles (snd (FastapiApp.get_user id w))
           = handles_after w (from_except (fst (FastapiApp.get_user id w))))
  ∧ open_handles (snd (FastapiApp.get_all_users w))
    = handles_after w (from_except (fst (FastapiApp.get_all_users w)))
  ∧ (∀ id upd, open_handles (snd (FastapiApp.update_user id upd w))
               = handles_after w (from_except (fst (FastapiApp.update_user id upd w))))
  ∧ (∀ id, open_handles (snd (FastapiApp.delete_user id w))
           = handles_after w (from_except (fst (FastapiApp.delete_user id w)))).
Proof.
  intros Hfresh. split_and!; intros.
  - by apply flask_create_user_handles.
  - by apply flask_get_user_handles.
  - by apply flask_get_all_users_handles.
  - by apply flask_update_user_handles.
  - by apply flask_delete_user_handles.
  - by apply fastapi_create_user_handles.
  - by apply fastapi_get_user_handles.
  - by apply fastapi_get_all_users_handles.
  - by apply fastapi_update_user_handles.
  - by apply fastapi_delete_user_handles.
Qed.

Lemma user_handlers_close_unless_except_witness :
  open_handles (snd (FlaskApp.update_user 1 new_email with_bob)) = open_handles with_bob
  ∧ open_handles (snd (FastapiApp.create_user bob with_bob))
    = {[next_handle with_bob]} ∪ open_handles with_bob.
Proof.
  destruct (user_handlers_close_unless_except with_bob)
    as (_ & _ & _ & Hupdate & _ & Hcreate & _).
  - assert (Hnone : open_handles with_bob = ∅) by (by vm_compute).
    rewrite Hnone. apply not_elem_of_empty.
  - split; [exact (Hupdate 1 new_email)|exact (Hcreate bob)].
Defined.

(** X21.  On a world where the handle the next [connect] hands out is
    not already open, each handler of the quotes service
    ([create_quote], [create_quotes_batch], [get_all_quotes],
    [get_quote], [update_quote], [delete_quote], [add_favorite],
    [remove_favorite], [get_favorite_quotes]) leaves exactly the
    connections open that were open before, plus the one it opened
    itself if and only if it answered 500 from its [except Exception]
    clause.  Every other answer, 400 and 404 included, comes with the
    connection closed. *)
Theorem quote_handlers_close_unless_except (w : world) :
  (next_handle w ∉ open_handles w) →
  (∀ quote, open_handles (snd (create_quote quote w))
            = handles_after w (from_except (fst (create_quote quote w))))
  ∧ (∀ quotes_in, open_handles (snd (create_quotes_batch quotes_in w))
                  = handles_after w
                      (from_except (fst (create_quotes_batch quotes_in w))))
  ∧ (∀ user_id, open_handles (snd (get_all_quotes user_id w))
                = handles_after w (from_except (fst (get_all_quotes user_id w))))
  ∧ (∀ id user_id, open_handles (snd (get_quote id user_id w))
                   = handles_after w (from_except (fst (get_quote id user_id w))))
  ∧ (∀ id upd user_id,
       open_handles (snd (update_quote id upd user_id w))
       = handles_after w (from_except (fst (update_quote id upd user_id w))))
  ∧ (∀ id, open_handles (snd (delete_quote id w))
           = handles_after w (from_except (fst (delete_quote id w))))
  ∧ (∀ id favorite, open_handles (snd (add_favorite id favorite w))
                    = handles_after w (from_except (fst (add_favorite id favorite w))))
  ∧ (∀ id user_id, open_handles (snd (remove_favorite id user_id w))
                   = handles_after w
                       (from_except (fst (remove_favorite id user_id w))))
  ∧ (∀ user_id, open_handles (snd (get_favorite_quotes user_id w))
                = handles_after w (from_except (fst (get_favorite_quotes user_id w)))).
Proof.
  intros Hfresh. split_and!; intros.
  - by apply create_quote_handles.
  - by apply create_quotes_batch_handles.
  - by apply get_all_quotes_handles.
  - by apply get_quote_handles.
  - by apply update_quote_handles.
  - by apply delete_quote_handles.
  - by apply add_favorite_handles.
  - by apply remove_favorite_handles.
  - by apply get_favorite_quotes_handles.
Qed.

Lemma quote_handlers_close_unless_except_witness :
  open_handles (snd (get_quote 7 None with_quote)) = open_handles with_quote
  ∧ open_handles (snd (update_quote 1 null_text_update None with_quote))
    = {[next_handle with_quote]} ∪ open_handles with_quote.
Proof.
  destruct (quote_handlers_close_unless_except with_quote)
    as (_ & _ & _ & Hget & Hupdate & _).
  - assert (Hnone : open_handles with_quote = ∅) by (by vm_compute).
    rewrite Hnone. apply not_elem_of_empty.
  - split; [exact (Hget 7 None)|exact (Hupdate 1 null_text_update None)].
Defined.

End Handles.

(** * Invariants of every store the handlers can reach. *)
Module Reachable.
Import Sqlite Runtime Sessions Samples History Observations SqliteFacts SessionFacts
  CreateUser UpdateUser QuotesApi QuotesFacts AddFavorite BatchCreate Constraints UserRoundTrips QuoteRuns QuoteCreation Favorites QuoteListing QuoteUpdates Handles.

Lemma update_quotes_cases sets id d :
  (∃ e, update_quotes sets id d = Failed e)
  ∨ (∃ n d', update_quotes sets id d = Changed n d'
             ∧ quotes_seq d' = quotes_seq d ∧ favorites d' = favorites d).
Proof.
  unfold update_quotes. repeat case_match; eauto.
  right. eexists _, _. by split_and!.
Qed.

Lemma batch_db_seq t quotes_in d : quotes_seq d ≤ quotes_seq (batch_db t quotes_in d).
Proof.
  revert d. induction quotes_in as [|quote rest IH]; intros d; [done|].
  cbn [batch_db]. etrans; [|apply IH]. cbn [quotes_seq add_quote with_quotes new_quote q_id].
  pose proof (next_rowid_above_seq (quotes_seq d) (q_id <$> quotes d)). lia.
Qed.

Ltac refs_done :=
  cbn [fst snd disk closed_after open_after]; try done.

Lemma serve_quote_refs req w :
  db_ok (disk w) → refs_bounded (disk w) → refs_bounded (disk (serve_quote req w)).
Proof.
  intros Hok Hrefs. destruct req; cbn [serve_quote].
  - rewrite create_quote_run. cbn [snd closed_after disk].
    intros f Hf. apply Hrefs in Hf.
    cbn [quotes_seq add_quote with_quotes new_quote q_id].
    pose proof (next_rowid_above_seq (quotes_seq (disk w)) (q_id <$> quotes (disk w))).
    lia.
  - rewrite create_quotes_batch_run. cbn [snd closed_after disk].
    intros f Hf. rewrite batch_db_favorites in Hf. apply Hrefs in Hf.
    pose proof (batch_db_seq (now w) quotes_in (disk w)). lia.
  - unfold get_all_quotes, get_db_connection. run.
    repeat (case_scrutinee; run; try refs_done).
  - unfold get_quote, get_db_connection, check_favorite, reraise_or_500. run.
    repeat (case_scrutinee; run; try refs_done).
  - unfold update_quote, get_db_connection, check_favorite, reraise_or_500.
    destruct (bool_decide _); [done|]. run.
    case_scrutinee; run; [|refs_done].
    match goal with
    | |- context [update_quotes ?s ?i ?d] =>
      destruct (update_quotes_cases s i d) as [[e ->]|(n & d' & -> & Hseq & Hfav)]
    end; run.
    + destruct e; run; refs_done.
    + assert (refs_bounded d') by (intros f Hf; rewrite Hfav in Hf; rewrite Hseq; auto).
      repeat (case_scrutinee; run; try refs_done).
  - rewrite delete_quote_run. destruct (quotes_where_id _ _); refs_done.
  - rewrite add_favorite_run.
    destruct (quotes_where_id quote_id (disk w)) as [|q rest] eqn:Hex; [refs_done|].
    case_bool_decide; refs_done.
    intros f Hf. cbn [favorites quotes_seq add_favorite_row with_favorites] in *.
    apply elem_of_app in Hf as [Hf|Hf]; [auto|].
    apply list_elem_of_singleton in Hf as ->. cbn [new_favorite f_quote_id].
    assert (Hq : q ∈ quotes (disk w) ∧ q_id q = quote_id)
      by (apply head_where_id; by rewrite Hex).
    destruct Hq as [Hq <-]. destruct Hok.
    apply (ok_quotes_seq0 (q_id q)). by apply list_elem_of_fmap_2.
  - rewrite remove_favorite_run. refs_done.
    intros f Hf. cbn [favorites quotes_seq without_favorite with_favorites] in *.
    apply list_elem_of_filter in Hf as [_ Hf]. auto.
  - rewrite get_favorite_quotes_run. refs_done.
Qed.

Lemma serve_quote_ok req w : store_ok w → store_ok (serve_quote req w).
Proof.
  intros [Hw Hrefs]. split; [|apply serve_quote_refs; [apply Hw|done]].
  destruct quotes_handlers_keep_ok as (H1 & H2 & H3 & H4 & H5 & H6 & H7 & H8 & H9).
  destruct req; cbn [serve_quote];
    [apply H1|apply H2|apply H3|apply H4|apply H5|apply H6|apply H7|apply H8|apply H9];
    done.
Qed.

Lemma serve_quotes_ok reqs w : store_ok w → store_ok (serve_quotes reqs w).
Proof.
  revert w. induction reqs as [|req rest IH]; intros w Hw; [done|].
  cbn [serve_quotes foldl]. apply IH. by apply serve_quote_ok.
Qed.

(** X20.  Whatever requests the quotes service has served since the
    empty store, in whatever order and with whatever answers: quote ids
    are pairwise distinct, positive and at most the AUTOINCREMENT
    high-water mark, no (quote_id, user_id) pair has two favorites rows,
    and every favorites row references a quote id that was issued. *)
Theorem reachable_quotes_store (reqs : list quote_request) (t : string) :
  let d := disk (serve_quotes reqs (boot empty_db t)) in
  NoDup (q_id <$> quotes d)
  ∧ (∀ q, q ∈ quotes d → 0 < q_id q ≤ quotes_seq d)
  ∧ NoDup (favorite_key <$> favorites d)
  ∧ (∀ f, f ∈ favorites d → f_quote_id f ≤ quotes_seq d).
Proof.
  intros d.
  assert (Hok : store_ok (serve_quotes reqs (boot empty_db t))).
  { apply serve_quotes_ok. split; [apply boot_ok|]. intros f Hf.
    by apply elem_of_nil in Hf. }
  destruct Hok as [[[] _] Hrefs]. fold d in Hrefs. split_and!; try done.
  intros q Hq. apply ok_quotes_seq0. by apply list_elem_of_fmap_2.
Qed.

(** X7.  Whatever create, get, update and delete requests the two User
    services have served since the empty store, in whatever order and
    with whatever answers: user ids are pairwise distinct, usernames are
    pairwise distinct, and every id is positive and at most the
    AUTOINCREMENT high-water mark. *)
Theorem reachable_users_store (reqs : list user_request) (t : string) :
  let d := disk (snd (serve_all reqs (boot empty_db t))) in
  NoDup (u_id <$> users d)
  ∧ NoDup (u_username <$> users d)
  ∧ (∀ u, u ∈ users d → 0 < u_id u ≤ users_seq d).
Proof.
  intros d.
  destruct (serve_all_keeps_ok reqs (boot empty_db t) (boot_ok t)) as [[] _].
  split_and!; try done.
  intros u Hu. apply ok_users_seq0. by apply list_elem_of_fmap_2.
Qed.

End Reachable.
